(** * Verification of the Neovim updater (update.py)

    A shallow embedding of the release-resolution and update pipeline of
    [update.py]: architecture detection from asset names, AppImage asset
    selection, the class-level release cache, the download/validation
    step, the symlink maintenance and the version decision in [main].

    Strings are modelled as Stdlib [string] (ASCII characters); Python's
    [str.lower] is ASCII lower-casing on them.  Times are integral seconds
    ([Z]).  The file system and the response cache are stdpp [gmap]s
    keyed by path or URL. *)

From Stdlib Require Import String Ascii List ZArith Bool Lia.
From stdpp Require Import base gmap strings list.
Import ListNotations.

Open Scope Z_scope.
#[local] Set Warnings "-register-all".

(* ------------------------------------------------------------------ *)
(** ** Python string primitives *)

Module PyStr.

(** [c.lower()] for one ASCII character. *)
Definition lower_char (c : ascii) : ascii :=
  let n := nat_of_ascii c in
  if (Nat.leb 65 n && Nat.leb n 90)%bool then ascii_of_nat (n + 32) else c.

(** [s.lower()] *)
Fixpoint lower (s : string) : string :=
  match s with
  | EmptyString => EmptyString
  | String c s' => String (lower_char c) (lower s')
  end.

(** [s.endswith(suf)] *)
Fixpoint endswith (s suf : string) : bool :=
  String.eqb s suf ||
  match s with
  | EmptyString => false
  | String _ s' => endswith s' suf
  end.

(** [sub in s] *)
Fixpoint contains (sub s : string) : bool :=
  String.prefix sub s ||
  match s with
  | EmptyString => false
  | String _ s' => contains sub s'
  end.

(** [s.lstrip("v")]: removes every leading ['v']. *)
Fixpoint lstrip_v (s : string) : string :=
  match s with
  | String c s' => if Ascii.eqb c "v"%char then lstrip_v s' else s
  | EmptyString => EmptyString
  end.

End PyStr.

(* ------------------------------------------------------------------ *)
(** ** The regular expression [\b<literal>\b] of [Architecture.patterns] *)

Module Regex.

(** [\w] of Python's [re] on ASCII: letters, digits and underscore. *)
Definition is_word (c : ascii) : bool :=
  let n := nat_of_ascii c in
  ((Nat.leb 48 n && Nat.leb n 57) || (Nat.leb 65 n && Nat.leb n 90) ||
   (Nat.leb 97 n && Nat.leb n 122) || Nat.eqb n 95)%bool.

Definition is_word_opt (o : option ascii) : bool :=
  match o with Some c => is_word c | None => false end.

(** [\b] between the character before a position and the one after it
    ([None] at either end of the subject). *)
Definition boundary (before after : option ascii) : bool :=
  xorb (is_word_opt before) (is_word_opt after).

Definition head (s : string) : option ascii :=
  match s with EmptyString => None | String c _ => Some c end.

(** Last character of [p], or [dflt] when [p] is empty. *)
Fixpoint last_char (dflt : option ascii) (p : string) : option ascii :=
  match p with
  | EmptyString => dflt
  | String c p' => last_char (Some c) p'
  end.

Fixpoint drop (n : nat) (s : string) : string :=
  match n, s with
  | O, _ => s
  | S _, EmptyString => EmptyString
  | S n', String _ s' => drop n' s'
  end.

(** The pattern [\b lit \b] matches at the current position, [prev] being
    the character just before it. *)
Definition match_at (lit : string) (prev : option ascii) (s : string) : bool :=
  boundary prev (head s) && String.prefix lit s &&
  boundary (last_char prev lit) (head (drop (String.length lit) s)).

(** [pattern.search(s)] tries every position from left to right. *)
Fixpoint search_from (lit : string) (prev : option ascii) (s : string) : bool :=
  match_at lit prev s ||
  match s with
  | EmptyString => false
  | String c s' => search_from lit (Some c) s'
  end.

(** [re.compile(rf"\b{re.escape(lit)}\b").search(s) is not None] *)
Definition search (lit : string) (s : string) : bool := search_from lit None s.

End Regex.

(* ------------------------------------------------------------------ *)
(** ** [class Architecture(Enum)] *)

Inductive Architecture := X86_64 | ARM64.

Definition Architecture_eqb (a b : Architecture) : bool :=
  match a, b with
  | X86_64, X86_64 | ARM64, ARM64 => true
  | _, _ => false
  end.

(** Enumeration order of [for arch in cls]. *)
Definition all_architectures : list Architecture := [X86_64; ARM64].

Definition canonical (a : Architecture) : string :=
  match a with X86_64 => "x86_64" | ARM64 => "arm64" end.

Definition matches (a : Architecture) : list string :=
  match a with
  | X86_64 => ["x86_64"; "amd64"; "x86-64"]
  | ARM64 => ["arm64"; "aarch64"; "armv8"]
  end.

(** [any(pattern.search(text) for pattern in arch.patterns)] *)
Definition arch_matches (a : Architecture) (text : string) : bool :=
  existsb (fun lit => Regex.search lit text) (matches a).

Fixpoint first_matching (archs : list Architecture) (text : string)
  : option Architecture :=
  match archs with
  | [] => None
  | a :: rest => if arch_matches a text then Some a else first_matching rest text
  end.

(** [Architecture.detect_from_name] *)
Definition detect_from_name (name : string) : option Architecture :=
  first_matching all_architectures (PyStr.lower name).

(* ------------------------------------------------------------------ *)
(** ** [ReleaseAsset], [ReleaseInfo] and [find_appimage_asset] *)

Record ReleaseAsset := {
  asset_name : string;
  browser_download_url : string;
  size : Z;
  content_type : string;
  download_count : Z
}.

Record ReleaseInfo := {
  tag_name : string;
  release_name : string;
  body : string;
  assets : list ReleaseAsset;
  prerelease : bool;
  draft : bool
}.

(** [not name_lower.endswith(".appimage") or ".appimage." in name_lower] *)
Definition skipped (name_lower : string) : bool :=
  negb (PyStr.endswith name_lower ".appimage") ||
  PyStr.contains ".appimage." name_lower.

(** The score of an asset whose architecture was detected as [detected]. *)
Definition asset_score (arch detected : Architecture) (name_lower : string) : Z :=
  let score := 0 in
  let score := if Architecture_eqb detected arch then score + 10 else score in
  let score := if PyStr.contains "linux" name_lower then score + 5 else score in
  score.

(** The loop body of [find_appimage_asset]: [Some (score, asset)] when
    the asset is appended to [appimage_assets]. *)
Definition candidate (arch : Architecture) (asset : ReleaseAsset)
  : option (Z * ReleaseAsset) :=
  let name_lower := PyStr.lower (asset_name asset) in
  if skipped name_lower then None
  else match detect_from_name name_lower with
       | None => None
       | Some detected => Some (asset_score arch detected name_lower, asset)
       end.

(** [appimage_assets] after the loop. *)
Fixpoint candidates (arch : Architecture) (l : list ReleaseAsset)
  : list (Z * ReleaseAsset) :=
  match l with
  | [] => []
  | a :: rest =>
      match candidate arch a with
      | Some c => c :: candidates arch rest
      | None => candidates arch rest
      end
  end.

(** [sorted(xs, key=lambda x: x[0], reverse=True)]: a stable sort by
    decreasing key (Python keeps equal keys in their original order also
    with [reverse=True]).  [insert_desc x l] puts [x] before the first
    element whose key is not larger. *)
Fixpoint insert_desc {A} (x : Z * A) (l : list (Z * A)) : list (Z * A) :=
  match l with
  | [] => [x]
  | y :: l' => if fst y <=? fst x then x :: l else y :: insert_desc x l'
  end.

Definition sorted_desc {A} (l : list (Z * A)) : list (Z * A) :=
  fold_right insert_desc [] l.

(** [ReleaseInfo.find_appimage_asset] on the asset list. *)
Definition find_appimage_asset (arch : Architecture) (l : list ReleaseAsset)
  : option ReleaseAsset :=
  match sorted_desc (candidates arch l) with
  | [] => None
  | (_, a) :: _ => Some a
  end.

(* ------------------------------------------------------------------ *)
(** ** [ReleaseManager]: the class-level response cache and the fetch *)

(** A JSON value as returned by [response.json()]. *)
Inductive json :=
  | JNull
  | JBool (b : bool)
  | JInt (z : Z)
  | JStr (s : string)
  | JList (l : list json)
  | JObj (fields : list (string * json)).

(** Python truthiness of the decoded value ([if cached_data:]). *)
Definition truthy (j : json) : bool :=
  match j with
  | JNull => false
  | JBool b => b
  | JInt z => negb (z =? 0)
  | JStr s => negb (String.eqb s "")
  | JList l => negb (length l =? 0)%nat
  | JObj f => negb (length f =? 0)%nat
  end.

Definition GITHUB_API_URL : string :=
  "https://api.github.com/repos/neovim/neovim/releases/latest".

Definition CACHE_DURATION : Z := 3600.

(** [_api_cache]: url -> (timestamp, data). *)
Abbreviation api_cache := (gmap string (Z * json)).

(** [ReleaseManager._get_cached_response]: the looked-up data and the
    cache afterwards ([del cls._api_cache[url]] on expiry).  A stored
    tuple is always truthy, so [if not cache_entry] only fires when the
    key is absent. *)
Definition get_cached_response (cache : api_cache) (url : string) (now : Z)
  : option json * api_cache :=
  match cache !! url with
  | None => (None, cache)
  | Some (timestamp, data) =>
      if now - timestamp >? CACHE_DURATION then (None, delete url cache)
      else (Some data, cache)
  end.

(** [ReleaseManager._cache_response] *)
Definition cache_response (cache : api_cache) (url : string) (data : json) (now : Z)
  : api_cache := <[url := (now, data)]> cache.

(** What [requests.get] answers when it is called. *)
Record Response := { status_code : Z; response_json : json }.

(** How a fetch ends: [Parsed data] returns [ReleaseInfo.from_dict(data)];
    [FetchError code] raises [ValueError] for a non-200 status. *)
Inductive FetchResult := Parsed (data : json) | FetchError (code : Z).

Record FetchRun := {
  fetch_result : FetchResult;
  fetch_cache : api_cache;    (* [_api_cache] afterwards *)
  network_called : bool       (* whether [requests.get] was called *)
}.

(** [ReleaseManager.fetch_latest_release] with [self.GITHUB_API_URL] as
    [url]: [t_check] is [time.time()] in the cache lookup, [t_store] the
    one in [_cache_response], [resp] the reply of the network. *)
Definition fetch_url (url : string) (cache : api_cache) (t_check t_store : Z)
  (resp : Response) : FetchRun :=
  let '(cached_data, cache1) := get_cached_response cache url t_check in
  let miss :=
    if negb (status_code resp =? 200) then
      {| fetch_result := FetchError (status_code resp);
         fetch_cache := cache1; network_called := true |}
    else
      let data := response_json resp in
      {| fetch_result := Parsed data;
         fetch_cache := cache_response cache1 url data t_store;
         network_called := true |} in
  match cached_data with
  | Some d => if truthy d then
                {| fetch_result := Parsed d; fetch_cache := cache1;
                   network_called := false |}
              else miss
  | None => miss
  end.

Definition fetch_latest_release := fetch_url GITHUB_API_URL.

(* ------------------------------------------------------------------ *)
(** ** The file system *)

(** A node: a regular file with its size and whether a mode execute bit
    is set, a directory, or a symbolic link with its target. *)
Inductive Node := File (fsize : Z) (fexec : bool) | Dir | Link (target : string).

Abbreviation fs_state := (gmap string Node).

(** [os.path.join(d, n)] *)
Definition path_join (d n : string) : string :=
  if String.prefix "/" n then n
  else if String.eqb d "" then n
  else if PyStr.endswith d "/" then d +:+ n
  else d +:+ "/" +:+ n.

(** Following symbolic links, at most 40 of them (Linux's limit;
    beyond it the lookup fails with [ELOOP]). *)
Fixpoint resolve (fuel : nat) (fs : fs_state) (p : string) : option Node :=
  match fuel with
  | O => None
  | S f =>
      match fs !! p with
      | Some (Link t) => resolve f fs t
      | r => r
      end
  end.

(** [os.path.exists(p)]: follows links; a dangling link does not exist. *)
Definition path_exists (fs : fs_state) (p : string) : bool :=
  match resolve 40 fs p with Some _ => true | None => false end.

(** [os.path.islink(p)] *)
Definition islink (fs : fs_state) (p : string) : bool :=
  match fs !! p with Some (Link _) => true | _ => false end.

(** [os.readlink(p)] (only called on a link). *)
Definition readlink (fs : fs_state) (p : string) : string :=
  match fs !! p with Some (Link t) => t | _ => "" end.

(** [shutil.rmtree(p)]: [p] and everything below it. *)
Definition rmtree (p : string) (fs : fs_state) : fs_state :=
  filter (fun kv : string * Node =>
            ~ (kv.1 = p \/ String.prefix (p +:+ "/") kv.1 = true)) fs.

(* ------------------------------------------------------------------ *)
(** ** [ReleaseManager.validate_appimage] and [download_latest] *)

Definition MIN_APPIMAGE_SIZE : Z := 10 * 1024 * 1024.

(** [os.access(p, os.X_OK)]; [noexec] is a file system mounted noexec. *)
Definition access_x (fs : fs_state) (noexec : bool) (p : string) : bool :=
  match resolve 40 fs p with
  | Some (File _ true) => negb noexec
  | Some Dir => negb noexec
  | _ => false
  end.

(** [os.path.getsize(p)] of an existing regular file. *)
Definition getsize (fs : fs_state) (p : string) : Z :=
  match resolve 40 fs p with Some (File n _) => n | _ => 0 end.

(** [expected_size] in a boolean context. *)
Definition truthy_size (o : option Z) : bool :=
  match o with Some n => negb (n =? 0) | None => false end.

Definition validate_appimage (fs : fs_state) (noexec : bool) (file_path : string)
  (expected_size : option Z) : bool :=
  if negb (path_exists fs file_path) then false
  else
    let file_size := getsize fs file_path in
    if file_size <? MIN_APPIMAGE_SIZE then false
    else if truthy_size expected_size &&
            negb (file_size =? default 0 expected_size) then false
    else if negb (access_x fs noexec file_path) then false
    else true.

(** How the streaming of the body ends: all [n] bytes written, or an
    exception ([requests] error, [raise_for_status], a failing write)
    after [n] bytes were written. *)
Inductive Stream := Streamed (n : Z) | StreamRaised (n : Z).

(** The behaviour of the environment during one [download_latest]. *)
Record DownloadEnv := {
  stream : Stream;
  chmod_ok : bool;      (* [os.chmod(temp_file.name, 0o755)] returns *)
  noexec_mount : bool;  (* [target_dir] is on a noexec file system *)
  move_ok : bool        (* the rename of [shutil.move] succeeds *)
}.

(** [except Exception]: [if os.path.exists(temp_file.name): os.unlink(...)] *)
Definition cleanup (tmp : string) (fs : fs_state) : fs_state :=
  if path_exists fs tmp then delete tmp fs else fs.

(** The body of [download_latest] from the creation of the temporary file
    on; [tmp_name] is the random name [NamedTemporaryFile] picked in
    [target_dir] (it is created with [O_EXCL], mode 0600). *)
Definition download_latest (fs : fs_state) (target_dir tmp_name : string)
  (expected_size : option Z) (env : DownloadEnv) : bool * fs_state :=
  let final_path := path_join target_dir "nvim.appimage" in
  let tmp := path_join target_dir tmp_name in
  let fs1 := <[tmp := File 0 false]> fs in
  match stream env with
  | StreamRaised n => (false, cleanup tmp (<[tmp := File n false]> fs1))
  | Streamed n =>
      let fs2 := <[tmp := File n false]> fs1 in
      if negb (chmod_ok env) then (false, cleanup tmp fs2)
      else
        let fs3 := <[tmp := File n true]> fs2 in
        if negb (validate_appimage fs3 (noexec_mount env) tmp expected_size) then
          (false, delete tmp fs3)
        else if negb (move_ok env) then (false, cleanup tmp fs3)
        else (true, <[final_path := File n true]> (delete tmp fs3))
  end.

(* ------------------------------------------------------------------ *)
(** ** [NvimUpdater]: extraction and the command-entry symlink *)

Record NvimUpdater := {
  nvim_dir : string;
  symlink_path : string;
  apprun_path : string
}.

Definition NVIM_DIR : string := "/opt/nvim/".
Definition SYMLINK_PATH : string := "/usr/bin/nvim".
Definition APPRUN_PATH : string := "/opt/nvim/squashfs-root/AppRun".

Definition default_updater : NvimUpdater :=
  {| nvim_dir := NVIM_DIR; symlink_path := SYMLINK_PATH; apprun_path := APPRUN_PATH |}.

Definition appimage_path (u : NvimUpdater) : string := path_join (nvim_dir u) "nvim.appimage".
Definition extract_path (u : NvimUpdater) : string := path_join (nvim_dir u) "squashfs-root".

(** The first statement of [extract_appimage]: the old extraction
    directory is removed. *)
Definition remove_old_extraction (u : NvimUpdater) (fs : fs_state) : fs_state :=
  if path_exists fs (extract_path u) then rmtree (extract_path u) fs else fs.

(** [call([appimage_path, "--appimage-extract"])] run in [nvim_dir]:
    when the bundle extracts, [squashfs-root] and its launcher [AppRun]
    appear; when it fails (its exit status is ignored) nothing appears. *)
Definition run_extraction (u : NvimUpdater) (extracted : bool) (fs : fs_state)
  : fs_state :=
  if extracted then
    <[path_join (extract_path u) "AppRun" := File 1 true]>
      (<[extract_path u := Dir]> fs)
  else fs.

(** [NvimUpdater.extract_appimage] *)
Definition extract_appimage (u : NvimUpdater) (extracted : bool) (fs : fs_state)
  : fs_state :=
  run_extraction u extracted (remove_old_extraction u fs).

(** [os.remove(p)]: raises ([None]) on a directory. *)
Definition os_remove (p : string) (fs : fs_state) : option fs_state :=
  match fs !! p with
  | Some Dir => None
  | _ => Some (delete p fs)
  end.

(** [os.symlink(target, p)]: raises ([None]) when an entry [p] exists,
    a dangling link included. *)
Definition os_symlink (target p : string) (fs : fs_state) : option fs_state :=
  match fs !! p with
  | Some _ => None
  | None => Some (<[p := Link target]> fs)
  end.

(** The first [if] of [update_symlink]: the legacy link [nvim_dir/nvim]
    is unlinked, and [symlink_updated] set, when it is a link. *)
Definition remove_legacy_link (u : NvimUpdater) (fs : fs_state) : fs_state * bool :=
  let old_symlink := path_join (nvim_dir u) "nvim" in
  if islink fs old_symlink then (delete old_symlink fs, true) else (fs, false).

(** [os.path.islink(self.symlink_path) and
     os.readlink(self.symlink_path) == self.apprun_path] *)
Definition link_is_current (u : NvimUpdater) (fs : fs_state) : bool :=
  islink fs (symlink_path u) && String.eqb (readlink fs (symlink_path u)) (apprun_path u).

(** [NvimUpdater.update_symlink]: the file system afterwards and whether
    the shell cache was refreshed ([symlink_updated]), or [None] when an
    [os] call raises. *)
Definition update_symlink (u : NvimUpdater) (fs : fs_state)
  : option (fs_state * bool) :=
  let '(fs1, symlink_updated) := remove_legacy_link u fs in
  if negb (link_is_current u fs1) then
    match (if path_exists fs1 (symlink_path u) then os_remove (symlink_path u) fs1
           else Some fs1) with
    | None => None
    | Some fs2 =>
        match os_symlink (apprun_path u) (symlink_path u) fs2 with
        | None => None
        | Some fs3 => Some (fs3, true)
        end
    end
  else Some (fs1, symlink_updated).

(** The command-entry symlink resolves to an existing executable. *)
Definition link_usable (u : NvimUpdater) (fs : fs_state) : bool :=
  match resolve 40 fs (symlink_path u) with
  | Some (File _ true) => true
  | _ => false
  end.

(* ------------------------------------------------------------------ *)
(** ** [main] *)

(** The command-line flags. *)
Record Args := { debug : bool; uninstall : bool; config : bool }.

(** The operations [main] calls, in the order of the source. *)
Inductive Step :=
  | SUninstall          (* Installer.uninstall() *)
  | SInstallScript      (* Installer.install_script() *)
  | SDownloadAndInstall (* nvim_updater.download_and_install():
                           download, validate, move, extract, symlink *)
  | SUpdateSymlink      (* nvim_updater.update_symlink() *)
  | SConfigSync         (* ConfigRepoManager().clone_or_update() *)
  | SCrontab            (* SchedulerManager.setup_crontab() *)
  | SAlias              (* Installer.create_update_alias() *)
  | SSelfUpdate.        (* SelfUpdater().check_and_update() *)

(** How the process ends: [sys.exit(code)], an exception propagating out
    of [main], or [main] returning. *)
Inductive Outcome := Exited (code : Z) | Raised | Completed.

(** Runs the steps in order; [raises s] says whether step [s] raises.
    The trace lists the steps entered; the flag is [true] when one raised. *)
Fixpoint run_steps (raises : Step -> bool) (steps : list Step) : list Step * bool :=
  match steps with
  | [] => ([], false)
  | s :: rest =>
      if raises s then ([s], true)
      else let '(tr, r) := run_steps raises rest in (s :: tr, r)
  end.

(** The result of [ReleaseManager().fetch_latest_release()] in [main]. *)
Inductive FetchOutcome := FetchReturned (r : ReleaseInfo) | FetchRaised.

(** The condition of the [if] in [main]:
    [current_version is None or current_version.lstrip("v") !=
     latest_release.tag_name.lstrip("v") or
     not nvim_updater.is_installed_correctly()];
    [apprun_exists] is [os.path.exists(self.apprun_path)]. *)
Definition needs_update (current_version : option string) (tag : string)
  (apprun_exists : bool) : bool :=
  match current_version with
  | None => true
  | Some v =>
      negb (String.eqb (PyStr.lstrip_v v) (PyStr.lstrip_v tag)) || negb apprun_exists
  end.

(** [main]: the trace of the steps entered and the outcome.
    [current_version] is [nvim_updater.get_installed_version()], which
    catches every exception itself. *)
Definition main (a : Args) (raises : Step -> bool)
  (current_version : option string) (fetch : FetchOutcome) (apprun_exists : bool)
  : list Step * Outcome :=
  let finish '(tr, r) ok := (tr, if r : bool then Raised else ok) in
  if uninstall a then finish (run_steps raises [SUninstall]) (Exited 0)
  else if config a then finish (run_steps raises [SConfigSync; SCrontab]) (Exited 0)
  else
    let '(tr0, r0) := run_steps raises [SInstallScript] in
    if r0 then (tr0, Raised)
    else match fetch with
         | FetchRaised => (tr0, Raised)
         | FetchReturned latest =>
             let first :=
               if needs_update current_version (tag_name latest) apprun_exists
               then SDownloadAndInstall else SUpdateSymlink in
             let '(tr, r) :=
               run_steps raises [first; SConfigSync; SCrontab; SAlias; SSelfUpdate] in
             (tr0 ++ tr, if r then Raised else Completed)
         end.

(* ------------------------------------------------------------------ *)
(** ** [ReleaseAsset.from_dict] and [ReleaseInfo.from_dict] *)

(** The records as [from_dict] builds them: the dataclasses check no
    types, so each field holds whatever JSON value its key maps to. *)
Record RawAsset := {
  raw_name : json;
  raw_browser_download_url : json;
  raw_size : json;
  raw_content_type : json;
  raw_download_count : json
}.

Record RawRelease := {
  raw_tag_name : json;
  raw_release_name : json;
  raw_body : json;
  raw_assets : list RawAsset;
  raw_prerelease : json;
  raw_draft : json
}.

(** [d[key]] on the dict [json.loads] built from [fields]: of duplicate
    keys the last one wins; [None] is the [KeyError]. *)
Definition jget (key : string) (fields : list (string * json)) : option json :=
  fold_left (fun acc (kv : string * json) => if String.eqb kv.1 key then Some kv.2 else acc)
    fields None.

(** [data[key]] on any decoded value: subscripting a list, a string, a
    number, a boolean or [None] with a string raises [TypeError]. *)
Definition subscript (data : json) (key : string) : option json :=
  match data with JObj f => jget key f | _ => None end.

(** [ReleaseAsset.from_dict(data)]; [None] when it raises. *)
Definition asset_from_dict (data : json) : option RawAsset :=
  name ← subscript data "name";
  url ← subscript data "browser_download_url";
  sz ← subscript data "size";
  ct ← subscript data "content_type";
  dc ← subscript data "download_count";
  Some {| raw_name := name; raw_browser_download_url := url; raw_size := sz;
          raw_content_type := ct; raw_download_count := dc |}.

(** [for asset in value]: a list yields its elements, a dict its keys and
    a string its characters (both as strings); anything else is not
    iterable ([TypeError]). *)
Definition iter_json (value : json) : option (list json) :=
  match value with
  | JList l => Some l
  | JObj f => Some (map (fun kv : string * json => JStr kv.1) f)
  | JStr s => Some (map (fun c => JStr (String c EmptyString)) (list_ascii_of_string s))
  | _ => None
  end.

(** A list comprehension whose body may raise. *)
Fixpoint map_option {A B} (f : A -> option B) (l : list A) : option (list B) :=
  match l with
  | [] => Some []
  | x :: l' => y ← f x; ys ← map_option f l'; Some (y :: ys)
  end.

(** [ReleaseInfo.from_dict(data)]; [None] when it raises. *)
Definition release_from_dict (data : json) : option RawRelease :=
  items ← subscript data "assets";
  elems ← iter_json items;
  assets ← map_option asset_from_dict elems;
  tag ← subscript data "tag_name";
  name ← subscript data "name";
  body ← subscript data "body";
  pre ← subscript data "prerelease";
  draft ← subscript data "draft";
  Some {| raw_tag_name := tag; raw_release_name := name; raw_body := body;
          raw_assets := assets; raw_prerelease := pre; raw_draft := draft |}.

(** What [fetch_latest_release] returns: [ReleaseInfo.from_dict] of the
    payload; [None] when it raises (a non-200 status or [from_dict]). *)
Definition parsed_release (run : FetchRun) : option RawRelease :=
  match fetch_result run with
  | Parsed d => release_from_dict d
  | FetchError _ => None
  end.

(** The JSON objects the GitHub API serves for an asset and a release
    (the keys [from_dict] reads, in the API's order). *)
Definition asset_to_json (a : RawAsset) : json :=
  JObj [("name", raw_name a); ("content_type", raw_content_type a);
        ("size", raw_size a); ("download_count", raw_download_count a);
        ("browser_download_url", raw_browser_download_url a)].

Definition release_to_json (r : RawRelease) : json :=
  JObj [("tag_name", raw_tag_name r); ("name", raw_release_name r);
        ("draft", raw_draft r); ("prerelease", raw_prerelease r);
        ("assets", JList (map asset_to_json (raw_assets r))); ("body", raw_body r)].

(* ------------------------------------------------------------------ *)
(** ** Python's [str.splitlines] and [str.split] *)

Module PySplit.

(** Line boundaries of [str.splitlines] among ASCII characters:
    \n \v \f \r and \x1c \x1d \x1e. *)
Definition is_line_break (c : ascii) : bool :=
  let n := nat_of_ascii c in
  (Nat.leb 10 n && Nat.leb n 13) || (Nat.leb 28 n && Nat.leb n 30).

(** Whitespace of [str.split()] among ASCII characters:
    \t \n \v \f \r, \x1c to \x1f and the space. *)
Definition is_space (c : ascii) : bool :=
  let n := nat_of_ascii c in
  (Nat.leb 9 n && Nat.leb n 13) || (Nat.leb 28 n && Nat.leb n 32).

Fixpoint take_line (s : string) : string :=
  match s with
  | EmptyString => EmptyString
  | String c s' => if is_line_break c then EmptyString else String c (take_line s')
  end.

(** [s.splitlines()[0]]; [None] is the [IndexError] of an empty [s]. *)
Definition first_line (s : string) : option string :=
  match s with EmptyString => None | _ => Some (take_line s) end.

(** The text of [s] before the first occurrence of [sep]. *)
Fixpoint upto (sep s : string) : string :=
  if String.prefix sep s then EmptyString
  else match s with
       | EmptyString => EmptyString
       | String c s' => String c (upto sep s')
       end.

(** [s.split(sep)[1]] for an [s] that starts with [sep]: the search for
    the next occurrence resumes after the first one. *)
Definition second_field (sep s : string) : string :=
  upto sep (Regex.drop (String.length sep) s).

Fixpoint skip_space (s : string) : string :=
  match s with
  | EmptyString => EmptyString
  | String c s' => if is_space c then skip_space s' else s
  end.

Fixpoint take_word (s : string) : string :=
  match s with
  | EmptyString => EmptyString
  | String c s' => if is_space c then EmptyString else String c (take_word s')
  end.

Fixpoint drop_word (s : string) : string :=
  match s with
  | EmptyString => EmptyString
  | String c s' => if is_space c then s else drop_word s'
  end.

(** [s.split()[0]]; [None] is the [IndexError] of a blank [s]. *)
Definition first_word (s : string) : option string :=
  match take_word (skip_space s) with
  | EmptyString => None
  | w => Some w
  end.

(** [s.split(maxsplit=1)]: the first word and, when anything but
    whitespace follows, the rest after the whitespace run (trailing
    whitespace kept). *)
Definition split_max1 (s : string) : list string :=
  match skip_space s with
  | EmptyString => []
  | s1 =>
      match skip_space (drop_word s1) with
      | EmptyString => [take_word s1]
      | rest => [take_word s1; rest]
      end
  end.

End PySplit.

(* ------------------------------------------------------------------ *)
(** ** [NvimUpdater.get_installed_version] *)

(** [probe] is what [run([self.apprun_path, "--version"], ...)] gives:
    [Some (returncode, stdout)], or [None] when [run] raises (no such
    file, not executable, the 5 s timeout); [except Exception] turns
    every exception, [IndexError] included, into [None]. *)
Definition get_installed_version (probe : option (Z * string)) : option string :=
  match probe with
  | None => None
  | Some (returncode, stdout) =>
      if returncode =? 0 then
        match PySplit.first_line stdout with
        | None => None
        | Some first_line =>
            if String.prefix "NVIM v" first_line
            then PySplit.first_word (PySplit.second_field "NVIM v" first_line)
            else None
        end
      else None
  end.

(** A string holding none of the whitespace of [str.split()]. *)
Definition no_space (v : string) : bool :=
  forallb (fun c => negb (PySplit.is_space c)) (list_ascii_of_string v).

(* ------------------------------------------------------------------ *)
(** ** [download_latest] from its start, and [download_and_install] *)

(** [self.latest_release.get_appimage_url(arch)] *)
Definition get_appimage_url (r : ReleaseInfo) (arch : Architecture) : option string :=
  match find_appimage_asset arch (assets r) with
  | Some asset => Some (browser_download_url asset)
  | None => None
  end.

(** [self.latest_release.get_appimage_size(arch)]: an asset instance is
    always truthy. *)
Definition get_appimage_size (r : ReleaseInfo) (arch : Architecture) : option Z :=
  match find_appimage_asset arch (assets r) with
  | Some asset => Some (size asset)
  | None => None
  end.

(** [ReleaseManager().download_latest(target_dir)]: [arch] is the result
    of [Architecture.detect_current()] and [release] the one of
    [fetch_latest_release()] ([None]: they raise).  A missing or empty
    download URL raises [ValueError]; from the temporary file on the body
    is [download_latest] above.  [None] when it raises. *)
Definition download_latest_full (arch : option Architecture) (release : option ReleaseInfo)
  (fs : fs_state) (target_dir tmp_name : string) (env : DownloadEnv)
  : option (bool * fs_state) :=
  match arch, release with
  | Some a, Some r =>
      match get_appimage_url r a with
      | None => None
      | Some download_url =>
          if String.eqb download_url "" then None
          else Some (download_latest fs target_dir tmp_name (get_appimage_size r a) env)
      end
  | _, _ => None
  end.

(** [NvimUpdater.download_and_install]: its result and the file system
    afterwards, or [None] when an exception propagates out of it;
    [extracted] says whether [--appimage-extract] succeeds. *)
Definition download_and_install (u : NvimUpdater) (fs : fs_state)
  (arch : option Architecture) (release : option ReleaseInfo) (tmp_name : string)
  (env : DownloadEnv) (extracted : bool) : option (bool * fs_state) :=
  match download_latest_full arch release fs (nvim_dir u) tmp_name env with
  | None => None
  | Some (false, fs1) => Some (false, fs1)
  | Some (true, fs1) =>
      match update_symlink u (extract_appimage u extracted fs1) with
      | None => None
      | Some (fs2, _) => Some (true, fs2)
      end
  end.

(* ------------------------------------------------------------------ *)
(** ** [ConfigRepoManager.update_repo]: the backed-up files *)

(** One line of [git status --porcelain] in the loop of [update_repo]:
    the [file_path] backed up when [status in ["m", "a"]], [None] for a
    skipped line or one that fails to parse.  [parts[0]] holds no
    whitespace, so its [.strip()] changes nothing. *)
Definition backup_target (line : string) : option string :=
  match PySplit.split_max1 line with
  | [st; file_path] =>
      let status := PyStr.lower st in
      if String.eqb status "m" || String.eqb status "a" then Some file_path else None
  | _ => None
  end.

(* ------------------------------------------------------------------ *)
(** ** [Installer.create_update_alias] and [SchedulerManager.setup_crontab] *)

Definition INSTALL_PATH : string := "/opt/nvim/update.py".

Definition newline : string := String "010"%char EmptyString.

Definition alias_line : string :=
  newline +:+ "alias update-nvim-config='python3 " +:+ INSTALL_PATH +:+ " --config'" +:+ newline.

(** The rc file chosen from [os.environ.get("SHELL", "").lower()]. *)
Definition alias_rc_file (shell : string) : option string :=
  let sh := PyStr.lower shell in
  if PyStr.contains "bash" sh then Some "~/.bashrc"
  else if PyStr.contains "zsh" sh then Some "~/.zshrc"
  else None.

(** The [with open(rc_file, "a+")] block: the content afterwards and
    [alias_added]; writes in mode "a+" go to the end. *)
Definition append_alias (content : string) : string * bool :=
  if PyStr.contains "alias update-nvim-config" content then (content, false)
  else (content +:+ alias_line, true).

(** [Installer.create_update_alias] over the contents of the rc files
    (mode "a+" creates a missing one, read as empty). *)
Definition create_update_alias (shell : string) (rc : gmap string string)
  : gmap string string * bool :=
  match alias_rc_file shell with
  | None => (rc, false)
  | Some rc_file =>
      let '(content, alias_added) := append_alias (default "" (rc !! rc_file)) in
      (<[rc_file := content]> rc, alias_added)
  end.

Record CronJob := { job_command : string; job_schedule : string }.

Definition update_command : string := "python3 " +:+ INSTALL_PATH.

(** [SchedulerManager.setup_crontab] on the user's jobs: the jobs
    afterwards and whether [cron.write()] ran; [cron.new] appends. *)
Definition setup_crontab (cron : list CronJob) : list CronJob * bool :=
  if existsb (fun job => String.eqb (job_command job) update_command) cron then (cron, false)
  else (cron ++ [{| job_command := update_command; job_schedule := "0 2 * * *" |}], true).

(* ------------------------------------------------------------------ *)
(** ** [SelfUpdater] *)

(** File contents by path. *)
Abbreviation text_fs := (gmap string string).

Record SelfUpdateEnv := {
  temp_dir : string;         (* [tempfile.gettempdir()] *)
  tmp_writable : bool;       (* the writes in [temp_dir] succeed *)
  mv_ok : string -> bool     (* [mv] onto that target succeeds *)
}.

Definition temp_script (e : SelfUpdateEnv) : string := path_join (temp_dir e) "update_new.py".
Definition replace_script_path (e : SelfUpdateEnv) : string :=
  path_join (temp_dir e) "replace_update.sh".

Definition dq : string := String "034"%char EmptyString.

(** The text of [replace_update.sh]. *)
Definition replace_script (e : SelfUpdateEnv) (target_script : string) : string :=
  "#!/bin/bash" +:+ newline +:+ "sleep 1" +:+ newline +:+
  "mv " +:+ dq +:+ temp_script e +:+ dq +:+ " " +:+ dq +:+ target_script +:+ dq +:+ newline +:+
  "chmod +x " +:+ dq +:+ target_script +:+ dq +:+ newline.

(** [call([replace_script_path, "&"], shell=True)]: with a list and
    [shell=True] the ["&"] becomes [$0] of [/bin/sh -c], not an operator,
    so [call] waits for the script: [mv] moves the temporary script onto
    the target (when it succeeds). *)
Definition run_replace_script (e : SelfUpdateEnv) (target_script : string) (files : text_fs)
  : text_fs :=
  if mv_ok e target_script then
    match files !! temp_script e with
    | Some c => <[target_script := c]> (delete (temp_script e) files)
    | None => files
    end
  else files.

(** [SelfUpdater.perform_update]; a failing write raises before anything
    is written and is logged. *)
Definition perform_update (e : SelfUpdateEnv) (target_script new_content : string)
  (files : text_fs) : text_fs :=
  if tmp_writable e then
    let f1 := <[temp_script e := new_content]> files in
    let f2 := <[replace_script_path e := replace_script e target_script]> f1 in
    run_replace_script e target_script f2
  else files.

(** One iteration of the loop of [check_and_update]; reading a missing
    script raises, which is logged. *)
Definition check_script (e : SelfUpdateEnv) (new_content : string) (files : text_fs)
  (script : string) : text_fs :=
  match files !! script with
  | None => files
  | Some current_content =>
      if String.eqb new_content current_content then files
      else perform_update e script new_content files
  end.

(** [SelfUpdater.check_and_update]: [resp] is the status and text of
    [requests.get(self.update_script_url)], [None] when it raises. *)
Definition check_and_update (e : SelfUpdateEnv) (resp : option (Z * string))
  (target_scripts : list string) (files : text_fs) : text_fs :=
  match resp with
  | None => files
  | Some (code, new_content) =>
      if negb (code =? 200) then files
      else fold_left (check_script e new_content) target_scripts files
  end.

(** A target whose content can be read and differs from [new_content]. *)
Definition script_outdated (new_content : string) (files : text_fs) (script : string) : bool :=
  match files !! script with
  | Some c => negb (String.eqb new_content c)
  | None => false
  end.

(* ------------------------------------------------------------------ *)
(** ** Concrete inputs used below *)

Definition mk_asset (name : string) (sz : Z) : ReleaseAsset :=
  {| asset_name := name;
     browser_download_url :=
       "https://github.com/neovim/neovim/releases/download/v0.10.2/" +:+ name;
     size := sz; content_type := "application/octet-stream"; download_count := 0 |}.

Definition nvim_appimage : ReleaseAsset := mk_asset "nvim-linux-x86_64.appimage" 15000000.
Definition nvim_appimage_zsync : ReleaseAsset :=
  mk_asset "nvim-linux-x86_64.appimage.zsync" 500.
Definition nvim_arm_appimage : ReleaseAsset := mk_asset "nvim-linux-arm64.appimage" 15000000.

(** [\b<lit>\b] delimits a whole word when [lit] starts and ends with a
    word character, as all of [Architecture.matches] do. *)
Definition word_literal (lit : string) : bool :=
  match lit with
  | EmptyString => false
  | String c _ => Regex.is_word c && Regex.is_word_opt (Regex.last_char None lit)
  end.

(** [tok] occurs in [s] delimited by non-word characters or the ends. *)
Definition whole_word (tok s : string) : Prop :=
  exists pre suf, s = pre +:+ tok +:+ suf /\
    Regex.is_word_opt (Regex.last_char None pre) = false /\
    Regex.is_word_opt (Regex.head suf) = false.

(** The first element of a list carries the largest key. *)
Definition head_max {A} (l : list (Z * A)) : Prop :=
  match l with [] => True | h :: _ => forall y, In y l -> fst y <= fst h end.

Definition no_flags : Args := {| debug := false; uninstall := false; config := false |}.

Definition release_v0_10_2 : ReleaseInfo :=
  {| tag_name := "v0.10.2"; release_name := "Nvim 0.10.2"; body := "";
     assets := [nvim_appimage; nvim_appimage_zsync]; prerelease := false; draft := false |}.

(** An existing installation and the file system of the scenario. *)
Definition installed_fs : fs_state :=
  <[path_join NVIM_DIR "nvim.appimage" := File 15000000 true]>
    (<[APPRUN_PATH := File 1 true]> (<[SYMLINK_PATH := Link APPRUN_PATH]> ∅)).

(** A 5000000-byte download, streamed completely. *)
Definition short_download : DownloadEnv :=
  {| stream := Streamed 5000000; chmod_ok := true; noexec_mount := false; move_ok := true |}.

(** The payload [{}] decoded from an HTTP 200 body. *)
Definition empty_manifest : Response := {| status_code := 200; response_json := JObj [] |}.

Definition server_error : Response := {| status_code := 503; response_json := JNull |}.

(** A fresh installation without any command-entry link yet, and the same
    installation extracted and linked. *)
Definition extracted_fs : fs_state :=
  <[APPRUN_PATH := File 1 true]>
    (<[path_join NVIM_DIR "squashfs-root" := Dir]>
      (<[path_join NVIM_DIR "nvim.appimage" := File 15000000 true]> ∅)).

Definition linked_fs : fs_state := <[SYMLINK_PATH := Link APPRUN_PATH]> extracted_fs.

(** What [AppRun --version] prints. *)
Definition nvim_version_output : string :=
  "NVIM v0.10.2" +:+ newline +:+ "Build type: Release".

(** A 200 payload that is not a release: no ["assets"]. *)
Definition partial_manifest : json := JObj [("tag_name", JStr "v0.10.2")].

Definition partial_response : Response :=
  {| status_code := 200; response_json := partial_manifest |}.


Definition release_zsync_only : ReleaseInfo :=
  {| tag_name := "v0.10.2"; release_name := "Nvim 0.10.2"; body := "";
     assets := [nvim_appimage_zsync]; prerelease := false; draft := false |}.

(** A 15000000-byte download, streamed completely. *)
Definition full_download : DownloadEnv :=
  {| stream := Streamed 15000000; chmod_ok := true; noexec_mount := false; move_ok := true |}.

(** A command-entry link left over from an installation elsewhere. *)
Definition stale_link_fs : fs_state := <[SYMLINK_PATH := Link "/opt/nvim-0.9/AppRun"]> ∅.

(** Two AppImages of the same score, in the order the release lists them. *)
Definition tied_assets : list ReleaseAsset :=
  [mk_asset "nvim-linux-x86_64.appimage" 15000000; mk_asset "nvim-x86_64-linux.appimage" 16000000].

(** The porcelain status codes [update_repo] backs up: one column a
    space, the other [M] or [A] (either case). *)
Definition is_m_or_a (c : ascii) : bool :=
  Ascii.eqb (PyStr.lower_char c) "m" || Ascii.eqb (PyStr.lower_char c) "a".

Definition porcelain_backed_up (x y : ascii) : bool :=
  (Ascii.eqb x " " && is_m_or_a y) || (Ascii.eqb y " " && is_m_or_a x).

Definition tmp_env : SelfUpdateEnv :=
  {| temp_dir := "/tmp"; tmp_writable := true; mv_ok := fun _ => true |}.

Definition installed_scripts : text_fs :=
  <["/root/.config/nvim/update.py" := "v2"]> (<[INSTALL_PATH := "v1"]> ∅).

(* ================================================================== *)
(** * Proofs *)

(** ** Strings *)

(** stdpp declares [String.append] [simpl never]; these are its equations. *)
Lemma append_String (c : ascii) (p s : string) : String c p +:+ s = String c (p +:+ s).
Proof. reflexivity. Qed.

Lemma append_Empty (s : string) : EmptyString +:+ s = s.
Proof. reflexivity. Qed.

Ltac simpl_app := simpl in *; rewrite ?append_String, ?append_Empty in *.

Lemma prefix_spec (p s : string) :
  String.prefix p s = true <-> exists suf, s = p +:+ suf.
Proof.
  revert s; induction p as [|c p IH]; intros [|d s]; simpl.
  - split; [exists ""%string; reflexivity | auto].
  - split; [exists (String d s); reflexivity | auto].
  - split; [discriminate | intros [suf H]; discriminate].
  - destruct (ascii_dec c d) as [->|Hne].
    + rewrite IH. split; intros [suf H]; exists suf; simpl_app; congruence.
    + split; [discriminate | intros [suf H]; simpl_app; congruence].
Qed.

Lemma append_inj_l (p x y : string) : p +:+ x = p +:+ y -> x = y.
Proof. induction p as [|c p IH]; simpl_app; [auto | intros H; injection H; auto]. Qed.

Lemma drop_length_app (p suf : string) :
  Regex.drop (String.length p) (p +:+ suf) = suf.
Proof. induction p as [|c p IH]; simpl_app; auto. Qed.

Lemma match_at_spec (lit : string) (prev : option ascii) (s : string) :
  word_literal lit = true ->
  (Regex.match_at lit prev s = true <->
   exists suf, s = lit +:+ suf /\ Regex.is_word_opt prev = false /\
               Regex.is_word_opt (Regex.head suf) = false).
Proof.
  destruct lit as [|c l]; [discriminate|]. simpl. intros Hw.
  apply andb_true_iff in Hw as [Hc Hl].
  unfold Regex.match_at.
  destruct (String.prefix (String c l) s) eqn:Hp.
  - apply prefix_spec in Hp as [suf ->].
    pose proof (drop_length_app (String c l) suf) as Hd.
    rewrite Hd. rewrite append_String. unfold Regex.boundary. simpl. rewrite Hc, Hl.
    split.
    + intros H. exists suf. rewrite append_String.
      destruct (Regex.is_word_opt prev), (Regex.is_word_opt (Regex.head suf));
        simpl in H; auto; discriminate.
    + intros [suf' [Heq [H1 H2]]].
      apply (append_inj_l (String c l)) in Heq. subst suf'.
      rewrite H1, H2. reflexivity.
  - rewrite andb_false_r. simpl. split; [discriminate|].
    intros [suf [-> _]].
    assert (String.prefix (String c l) (String c l +:+ suf) = true) as Hp'
      by (apply prefix_spec; eauto).
    congruence.
Qed.

Lemma search_from_spec (lit : string) (prev : option ascii) (s : string) :
  word_literal lit = true ->
  (Regex.search_from lit prev s = true <->
   exists pre suf, s = pre +:+ lit +:+ suf /\
     Regex.is_word_opt (Regex.last_char prev pre) = false /\
     Regex.is_word_opt (Regex.head suf) = false).
Proof.
  intros Hw. revert prev.
  induction s as [|c s IH]; intros prev; simpl.
  - rewrite orb_false_r, (match_at_spec _ _ _ Hw). split.
    + intros [suf [H _]]. destruct lit; [discriminate | simpl_app; discriminate].
    + intros [pre [suf [H _]]]. destruct pre, lit; simpl_app; discriminate.
  - rewrite orb_true_iff, (match_at_spec _ _ _ Hw), IH. split.
    + intros [[suf [H1 [H2 H3]]] | [pre [suf [H1 [H2 H3]]]]].
      * exists ""%string, suf. simpl_app. auto.
      * exists (String c pre), suf. simpl_app. rewrite H1. auto.
    + intros [[|d pre] [suf [H1 [H2 H3]]]]; simpl_app.
      * left. exists suf. auto.
      * injection H1 as -> ->. right. exists pre, suf. auto.
Qed.

Lemma search_spec (lit s : string) :
  word_literal lit = true -> Regex.search lit s = true <-> whole_word lit s.
Proof. intros Hw. unfold Regex.search, whole_word. now rewrite search_from_spec. Qed.

Lemma matches_word_literal (a : Architecture) (t : string) :
  In t (matches a) -> word_literal t = true.
Proof.
  destruct a; simpl; intros H;
    repeat (destruct H as [<-|H]; [reflexivity|]); contradiction.
Qed.

Lemma arch_matches_spec (a : Architecture) (text : string) :
  arch_matches a text = true <-> exists t, In t (matches a) /\ whole_word t text.
Proof.
  unfold arch_matches. rewrite existsb_exists. split.
  - intros [t [Hin Hs]]. exists t. split; [auto|].
    now apply (search_spec t text (matches_word_literal a t Hin)).
  - intros [t [Hin Hs]]. exists t. split; [auto|].
    now apply (search_spec t text (matches_word_literal a t Hin)).
Qed.

Lemma lstrip_v_single (s : string) :
  Regex.head s <> Some "v"%char -> PyStr.lstrip_v (String "v" s) = s.
Proof.
  intros H. simpl. destruct s as [|c s]; [reflexivity|].
  simpl in H |- *. destruct (Ascii.eqb c "v"%char) eqn:E; [|reflexivity].
  apply Ascii.eqb_eq in E. subst c. congruence.
Qed.

(** ** Sorting *)

Lemma insert_desc_In {A} (x : Z * A) (l : list (Z * A)) (y : Z * A) :
  In y (insert_desc x l) <-> x = y \/ In y l.
Proof.
  induction l as [|h l IH]; simpl; [tauto|].
  destruct (fst h <=? fst x); simpl; [tauto|]. rewrite IH. tauto.
Qed.

Lemma sorted_desc_In {A} (l : list (Z * A)) (y : Z * A) :
  In y (sorted_desc l) <-> In y l.
Proof.
  induction l as [|h l IH]; simpl; [tauto|].
  rewrite insert_desc_In, IH. tauto.
Qed.

Lemma insert_desc_head_max {A} (x : Z * A) (l : list (Z * A)) :
  head_max l -> head_max (insert_desc x l).
Proof.
  destruct l as [|h l]; simpl; [intros _ y [<-|[]]; lia|].
  intros Hh. destruct (fst h <=? fst x) eqn:E; simpl.
  - apply Z.leb_le in E. intros y [<-|[<-|Hy]]; [lia|lia|].
    specialize (Hh y (or_intror Hy)). lia.
  - apply Z.leb_gt in E. intros y [<-|Hy]; [lia|].
    apply insert_desc_In in Hy as [->|Hy]; [lia|].
    apply Hh. now right.
Qed.

Lemma sorted_desc_head_max {A} (l : list (Z * A)) : head_max (sorted_desc l).
Proof.
  induction l as [|h l IH]; simpl; [exact I|]. now apply insert_desc_head_max.
Qed.

Lemma insert_desc_not_nil {A} (x : Z * A) (l : list (Z * A)) : insert_desc x l <> [].
Proof. destruct l as [|h l]; simpl; [discriminate|]. destruct (fst h <=? fst x); discriminate. Qed.

(** ** The asset matcher *)

Lemma candidate_same (arch : Architecture) (a b : ReleaseAsset) (s : Z) :
  candidate arch a = Some (s, b) -> b = a.
Proof.
  unfold candidate. destruct (skipped _); [discriminate|].
  destruct (detect_from_name _); [|discriminate]. congruence.
Qed.

Lemma candidates_In (arch : Architecture) (l : list ReleaseAsset) (s : Z) (a : ReleaseAsset) :
  In (s, a) (candidates arch l) <-> In a l /\ candidate arch a = Some (s, a).
Proof.
  induction l as [|h l IH]; simpl; [tauto|].
  destruct (candidate arch h) as [[s' b]|] eqn:E.
  - pose proof (candidate_same _ _ _ _ E) as ->. simpl. rewrite IH. split.
    + intros [H|[H1 H2]]; [injection H as -> ->; auto | auto].
    + intros [[->|H1] H2]; [left; congruence | right; auto].
  - rewrite IH. split; [tauto|]. intros [[->|H1] H2]; [congruence | auto].
Qed.

Lemma find_appimage_asset_max (arch : Architecture) (l : list ReleaseAsset) (a : ReleaseAsset) :
  find_appimage_asset arch l = Some a ->
  exists s, In (s, a) (candidates arch l) /\
    forall s' a', In (s', a') (candidates arch l) -> s' <= s.
Proof.
  unfold find_appimage_asset.
  pose proof (sorted_desc_head_max (candidates arch l)) as Hm.
  pose proof (fun y => sorted_desc_In (candidates arch l) y) as Hin.
  destruct (sorted_desc (candidates arch l)) as [|[s b] rest]; [discriminate|].
  intros H; injection H as ->. exists s. split.
  - apply Hin. now left.
  - intros s' a' H'. apply (Hm (s', a')). now apply Hin.
Qed.

Lemma find_appimage_asset_None (arch : Architecture) (l : list ReleaseAsset) :
  find_appimage_asset arch l = None <-> candidates arch l = [].
Proof.
  unfold find_appimage_asset. destruct (candidates arch l) as [|c cs] eqn:E; simpl.
  - tauto.
  - pose proof (insert_desc_not_nil c (sorted_desc cs)).
    destruct (insert_desc c (sorted_desc cs)) as [|[s b] rest]; [congruence|].
    split; discriminate.
Qed.

Lemma candidate_spec (arch : Architecture) (a : ReleaseAsset) (s : Z) :
  candidate arch a = Some (s, a) <->
  skipped (PyStr.lower (asset_name a)) = false /\
  exists detected, detect_from_name (PyStr.lower (asset_name a)) = Some detected /\
    s = asset_score arch detected (PyStr.lower (asset_name a)).
Proof.
  unfold candidate. destruct (skipped _); [split; [discriminate | intros [[=] _]]|].
  destruct (detect_from_name _) as [d|].
  - split; [intros H; injection H as <-; eauto | intros [_ [d' [[= <-] ->]]]; auto].
  - split; [discriminate | intros [_ [d' [[=] _]]]].
Qed.

Lemma candidate_None (arch : Architecture) (a : ReleaseAsset) :
  candidate arch a = None <->
  skipped (PyStr.lower (asset_name a)) = true \/
  detect_from_name (PyStr.lower (asset_name a)) = None.
Proof.
  unfold candidate. destruct (skipped _); [tauto|].
  destruct (detect_from_name _); split; try discriminate; intuition congruence.
Qed.

Lemma candidates_nil (arch : Architecture) (l : list ReleaseAsset) :
  candidates arch l = [] <-> forall a, In a l -> candidate arch a = None.
Proof.
  induction l as [|h l IH]; simpl; [split; [intros _ a []|auto]|].
  destruct (candidate arch h) as [c|] eqn:E.
  - split; [discriminate|]. intros H. rewrite (H h (or_introl eq_refl)) in E. discriminate.
  - rewrite IH. split; [intros H a [<-|Ha]; auto | intros H a Ha; auto].
Qed.

Lemma candidate_of_detected (arch : Architecture) (a : ReleaseAsset) (d : Architecture) :
  skipped (PyStr.lower (asset_name a)) = false ->
  detect_from_name (PyStr.lower (asset_name a)) = Some d ->
  candidate arch a = Some (asset_score arch d (PyStr.lower (asset_name a)), a).
Proof. intros Hs Hd. unfold candidate. now rewrite Hs, Hd. Qed.

Lemma asset_score_match (arch : Architecture) (n : string) : 10 <= asset_score arch arch n.
Proof. unfold asset_score. destruct arch; simpl; destruct (PyStr.contains _ _); lia. Qed.

Lemma asset_score_mismatch (arch d : Architecture) (n : string) :
  d <> arch -> asset_score arch d n <= 5.
Proof.
  intros Hne. unfold asset_score.
  destruct d, arch; try congruence; simpl; destruct (PyStr.contains _ _); lia.
Qed.

(* ------------------------------------------------------------------ *)
(** ** Claims about the asset matcher and the architecture detector *)

(** C2: every asset that survives the filter scores exactly +10 when its
    detected architecture is the target and +5 when its lower-cased name
    contains "linux"; the asset returned has the highest score; on the
    manifest [nvim-linux-x86_64.appimage] (15000000 bytes) and
    [nvim-linux-x86_64.appimage.zsync] (500 bytes) for X86_64 the zsync
    file is filtered out and the AppImage is returned with score 15. *)
Theorem find_appimage_asset_scoring (arch : Architecture) (l : list ReleaseAsset) :
  (forall s a, In (s, a) (candidates arch l) ->
     exists detected,
       detect_from_name (PyStr.lower (asset_name a)) = Some detected /\
       s = (if Architecture_eqb detected arch then 10 else 0) +
           (if PyStr.contains "linux" (PyStr.lower (asset_name a)) then 5 else 0)) /\
  (forall a, find_appimage_asset arch l = Some a ->
     exists s, In (s, a) (candidates arch l) /\
       forall s' a', In (s', a') (candidates arch l) -> s' <= s) /\
  candidates X86_64 [nvim_appimage; nvim_appimage_zsync] = [(15, nvim_appimage)] /\
  find_appimage_asset X86_64 [nvim_appimage; nvim_appimage_zsync] = Some nvim_appimage.
Proof.
  split; [|split; [apply find_appimage_asset_max | split; reflexivity]].
  intros s a H. apply candidates_In in H as [_ H].
  apply candidate_spec in H as [_ [d [Hd ->]]].
  exists d. split; [exact Hd|]. unfold asset_score.
  destruct (Architecture_eqb d arch), (PyStr.contains _ _); lia.
Qed.

(** C3: an asset returned by [find_appimage_asset] belongs to the list,
    its lower-cased name ends with ".appimage" and does not contain
    ".appimage."; the result is none exactly when every asset fails the
    suffix filter or has no detected architecture. *)
Theorem find_appimage_asset_filter (arch : Architecture) (l : list ReleaseAsset) :
  (forall a, find_appimage_asset arch l = Some a ->
     In a l /\
     PyStr.endswith (PyStr.lower (asset_name a)) ".appimage" = true /\
     PyStr.contains ".appimage." (PyStr.lower (asset_name a)) = false) /\
  (find_appimage_asset arch l = None <->
   forall a, In a l ->
     skipped (PyStr.lower (asset_name a)) = true \/
     detect_from_name (PyStr.lower (asset_name a)) = None).
Proof.
  split.
  - intros a Hf. apply find_appimage_asset_max in Hf as [s [Hin _]].
    apply candidates_In in Hin as [Hin Hc].
    apply candidate_spec in Hc as [Hs _]. unfold skipped in Hs.
    apply orb_false_iff in Hs as [He Hc]. apply negb_false_iff in He. auto.
  - rewrite find_appimage_asset_None, candidates_nil.
    split; intros H a Ha; apply (candidate_None arch a); auto.
Qed.

(** C4: of two assets that both pass the filter and have a detected
    architecture, exactly one of them the target, the matching one is
    returned whichever order they come in. *)
Theorem find_appimage_asset_arch_dominates (arch da db : Architecture) (a b : ReleaseAsset) :
  skipped (PyStr.lower (asset_name a)) = false ->
  skipped (PyStr.lower (asset_name b)) = false ->
  detect_from_name (PyStr.lower (asset_name a)) = Some da ->
  detect_from_name (PyStr.lower (asset_name b)) = Some db ->
  da = arch -> db <> arch ->
  find_appimage_asset arch [a; b] = Some a /\ find_appimage_asset arch [b; a] = Some a.
Proof.
  intros Hsa Hsb Hda Hdb <- Hne.
  pose proof (asset_score_match da (PyStr.lower (asset_name a))) as Ma.
  pose proof (asset_score_mismatch da db (PyStr.lower (asset_name b)) Hne) as Mb.
  unfold find_appimage_asset, candidates.
  rewrite (candidate_of_detected da a da Hsa Hda), (candidate_of_detected da b db Hsb Hdb).
  unfold sorted_desc; simpl.
  destruct (asset_score da db _ <=? asset_score da da _) eqn:E1;
    [|apply Z.leb_gt in E1; lia].
  destruct (asset_score da da _ <=? asset_score da db _) eqn:E2;
    [apply Z.leb_le in E2; lia|].
  split; reflexivity.
Qed.

Lemma find_appimage_asset_arch_dominates_witness :
  (skipped (PyStr.lower (asset_name nvim_appimage)) = false /\
   skipped (PyStr.lower (asset_name nvim_arm_appimage)) = false /\
   detect_from_name (PyStr.lower (asset_name nvim_appimage)) = Some X86_64 /\
   detect_from_name (PyStr.lower (asset_name nvim_arm_appimage)) = Some ARM64 /\
   X86_64 = X86_64 /\ ARM64 <> X86_64) /\
  (find_appimage_asset X86_64 [nvim_appimage; nvim_arm_appimage] = Some nvim_appimage /\
   find_appimage_asset X86_64 [nvim_arm_appimage; nvim_appimage] = Some nvim_appimage).
Proof.
  split.
  - repeat split; try reflexivity. discriminate.
  - apply (find_appimage_asset_arch_dominates X86_64 X86_64 ARM64);
      try reflexivity. discriminate.
Defined.

(** C5: [detect_from_name] returns X86_64 exactly when the lower-cased
    name contains one of "x86_64", "amd64", "x86-64" as a whole word;
    ARM64 exactly when it contains none of those but one of "arm64",
    "aarch64", "armv8"; and none (not an error) exactly when it contains
    no token of either architecture. *)
Theorem detect_from_name_spec (name : string) :
  let text := PyStr.lower name in
  (detect_from_name name = Some X86_64 <->
   exists t, In t (matches X86_64) /\ whole_word t text) /\
  (detect_from_name name = Some ARM64 <->
   ~ (exists t, In t (matches X86_64) /\ whole_word t text) /\
   exists t, In t (matches ARM64) /\ whole_word t text) /\
  (detect_from_name name = None <->
   forall a t, In t (matches a) -> ~ whole_word t text).
Proof.
  intros text. unfold detect_from_name. fold text. simpl.
  pose proof (arch_matches_spec X86_64 text) as S1.
  pose proof (arch_matches_spec ARM64 text) as S2.
  assert (Hnone : (forall a t, In t (matches a) -> ~ whole_word t text) <->
                  arch_matches X86_64 text = false /\ arch_matches ARM64 text = false).
  { split.
    - intros H. split; apply not_true_iff_false;
        [rewrite S1 | rewrite S2]; intros [t [Ht Hw]]; eapply H; eauto.
    - intros [H1 H2] a t Ht Hw. destruct a;
        [assert (arch_matches X86_64 text = true) by (apply S1; eauto)
        |assert (arch_matches ARM64 text = true) by (apply S2; eauto)]; congruence. }
  rewrite Hnone, <- S1, <- S2.
  destruct (arch_matches X86_64 text), (arch_matches ARM64 text);
    repeat split; intros; try discriminate; try tauto; try reflexivity;
    match goal with H : _ /\ _ |- _ => destruct H end; try discriminate; tauto.
Qed.

(** C10: whenever some asset passes the suffix filter and has a detected
    architecture, an asset is returned, also when no detected
    architecture is the target. *)
Theorem find_appimage_asset_some (arch : Architecture) (l : list ReleaseAsset) (a : ReleaseAsset) :
  In a l ->
  skipped (PyStr.lower (asset_name a)) = false ->
  detect_from_name (PyStr.lower (asset_name a)) <> None ->
  exists b, find_appimage_asset arch l = Some b.
Proof.
  intros Hin Hs Hd.
  destruct (detect_from_name (PyStr.lower (asset_name a))) as [d|] eqn:Ed; [|congruence].
  pose proof (candidate_of_detected arch a d Hs Ed) as Hc.
  destruct (find_appimage_asset arch l) as [b|] eqn:Hf; [eauto|].
  apply find_appimage_asset_None in Hf.
  rewrite (proj1 (candidates_nil arch l) Hf a Hin) in Hc. discriminate.
Qed.

Lemma find_appimage_asset_some_witness :
  (In nvim_appimage [nvim_appimage] /\
   skipped (PyStr.lower (asset_name nvim_appimage)) = false /\
   detect_from_name (PyStr.lower (asset_name nvim_appimage)) <> None) /\
  (exists b, find_appimage_asset ARM64 [nvim_appimage] = Some b) /\
  find_appimage_asset ARM64 [nvim_appimage] = Some nvim_appimage.
Proof.
  split; [split; [left; reflexivity | split; [reflexivity | discriminate]]|].
  split; [|reflexivity].
  apply (find_appimage_asset_some ARM64 [nvim_appimage] nvim_appimage);
    [left; reflexivity | reflexivity | discriminate].
Defined.

(* ------------------------------------------------------------------ *)
(** ** The version decision in [main] *)

Lemma run_steps_first (raises : Step -> bool) (s : Step) (rest : list Step) :
  In s (fst (run_steps raises (s :: rest))).
Proof. simpl. destruct (raises s); [now left|]. destruct (run_steps raises rest). now left. Qed.

Lemma run_steps_sub (raises : Step -> bool) (l : list Step) (x : Step) :
  In x (fst (run_steps raises l)) -> In x l.
Proof.
  induction l as [|s l IH]; simpl; [auto|].
  destruct (raises s); simpl; [tauto|].
  destruct (run_steps raises l) as [tr r] eqn:E. simpl in *. intuition.
Qed.

Lemma needs_update_spec (cv : option string) (tag : string) (apprun_exists : bool) :
  needs_update cv tag apprun_exists = true <->
  cv = None \/ apprun_exists = false \/
  exists v, cv = Some v /\ PyStr.lstrip_v v <> PyStr.lstrip_v tag.
Proof.
  destruct cv as [v|]; simpl; [|intuition].
  rewrite orb_true_iff, negb_true_iff, negb_true_iff, String.eqb_neq.
  split.
  - intros [H|H]; [right; right; eauto | right; left; auto].
  - intros [H|[H|[v' [[= <-] H]]]]; [discriminate | auto | auto].
Qed.

Lemma main_trace (a : Args) (raises : Step -> bool) (cv : option string)
  (latest : ReleaseInfo) (apprun_exists : bool) :
  uninstall a = false -> config a = false -> raises SInstallScript = false ->
  let first := if needs_update cv (tag_name latest) apprun_exists
               then SDownloadAndInstall else SUpdateSymlink in
  fst (main a raises cv (FetchReturned latest) apprun_exists) =
  SInstallScript ::
    fst (run_steps raises [first; SConfigSync; SCrontab; SAlias; SSelfUpdate]).
Proof.
  intros Hu Hc Hr first. unfold main. rewrite Hu, Hc. simpl (run_steps raises [SInstallScript]).
  rewrite Hr. fold first.
  destruct (run_steps raises [first; SConfigSync; SCrontab; SAlias; SSelfUpdate]); reflexivity.
Qed.

(** C1: in a run of [main] without flags whose install-script step
    returns, the full install ([download_and_install]) is entered exactly
    when the version probe gave none, the launcher is absent, or the two
    versions differ after [lstrip("v")]; otherwise no install happens and
    [update_symlink] runs instead.  (Python's [lstrip("v")] removes every
    leading 'v'; on a version with one leading 'v' it removes that one,
    see [lstrip_v_single].) *)
Theorem main_update_decision (a : Args) (raises : Step -> bool) (cv : option string)
  (latest : ReleaseInfo) (apprun_exists : bool) :
  uninstall a = false -> config a = false -> raises SInstallScript = false ->
  (In SDownloadAndInstall (fst (main a raises cv (FetchReturned latest) apprun_exists)) <->
   cv = None \/ apprun_exists = false \/
   exists v, cv = Some v /\ PyStr.lstrip_v v <> PyStr.lstrip_v (tag_name latest)) /\
  (In SUpdateSymlink (fst (main a raises cv (FetchReturned latest) apprun_exists)) <->
   ~ (cv = None \/ apprun_exists = false \/
      exists v, cv = Some v /\ PyStr.lstrip_v v <> PyStr.lstrip_v (tag_name latest))).
Proof.
  intros Hu Hc Hr. rewrite (main_trace a raises cv latest apprun_exists Hu Hc Hr).
  rewrite <- needs_update_spec.
  destruct (needs_update cv (tag_name latest) apprun_exists);
    match goal with |- context [run_steps raises (?f :: ?rest)] =>
      pose proof (run_steps_first raises f rest) as Hf;
      pose proof (run_steps_sub raises (f :: rest)) as Hs end;
    split; split; intros H; simpl in H |- *;
    try (right; exact Hf); try tauto; try discriminate;
    try (destruct H as [H|H]; [discriminate|]; apply Hs in H; simpl in H;
         intuition discriminate).
Qed.

Lemma main_update_decision_witness :
  (uninstall no_flags = false /\ config no_flags = false /\ (fun _ => false) SInstallScript = false) /\
  In SDownloadAndInstall
    (fst (main no_flags (fun _ => false) (Some "v0.10.1") (FetchReturned release_v0_10_2) true)) /\
  In SUpdateSymlink
    (fst (main no_flags (fun _ => false) (Some "v0.10.2") (FetchReturned release_v0_10_2) true)) /\
  ~ In SDownloadAndInstall
    (fst (main no_flags (fun _ => false) (Some "v0.10.2") (FetchReturned release_v0_10_2) true)).
Proof.
  split; [repeat split|].
  split; [|split].
  - apply (main_update_decision no_flags (fun _ => false) (Some "v0.10.1") release_v0_10_2 true);
      try reflexivity.
    right; right. exists "v0.10.1"%string. split; [reflexivity | discriminate].
  - apply (main_update_decision no_flags (fun _ => false) (Some "v0.10.2") release_v0_10_2 true);
      try reflexivity.
    intros [H|[H|[v [[= <-] H]]]]; [discriminate | discriminate | apply H; reflexivity].
  - intros Hin.
    destruct (main_update_decision no_flags (fun _ => false) (Some "v0.10.2")
                release_v0_10_2 true eq_refl eq_refl eq_refl) as [HD _].
    apply HD in Hin.
    destruct Hin as [H|[H|[v [[= <-] H]]]]; [discriminate | discriminate | apply H; reflexivity].
Defined.

(* ------------------------------------------------------------------ *)
(** ** Download and validation *)

Lemma resolve_file (fuel : nat) (fs : fs_state) (p : string) (n : Z) (b : bool) :
  fs !! p = Some (File n b) -> resolve (S fuel) fs p = Some (File n b).
Proof. simpl. now intros ->. Qed.

Lemma cleanup_insert_file (p : string) (n : Z) (b : bool) (fs : fs_state) :
  cleanup p (<[p := File n b]> fs) = delete p fs.
Proof.
  unfold cleanup, path_exists.
  rewrite (resolve_file 39 _ p n b) by apply lookup_insert_eq.
  apply delete_insert_eq.
Qed.

Lemma tmp_path_ne (d r : string) :
  path_join d ("tmp" +:+ r) <> path_join d "nvim.appimage".
Proof.
  unfold path_join. rewrite !append_String, append_Empty. simpl.
  destruct (String.eqb d ""); [discriminate|].
  destruct (PyStr.endswith d "/"); intros H; apply append_inj_l in H;
    rewrite ?append_String, ?append_Empty in H; discriminate.
Qed.

(** C6: with the temporary file [tmp...] created fresh in [target_dir]
    (no entry of that name before), every run of [download_latest] that
    reports failure (an exception while streaming, a failing chmod or
    move, or a failed validation: under 10 MiB, a size other than a
    non-zero expected size, not executable) leaves the file system exactly
    as it was: the temporary file is gone and [nvim.appimage] untouched.
    It reports success exactly when the stream completed and the file
    validated and was moved, and then the only change is the validated
    file now at [nvim.appimage]. *)
Theorem download_latest_atomic (fs : fs_state) (target_dir r : string)
  (expected_size : option Z) (env : DownloadEnv) :
  fs !! path_join target_dir ("tmp" +:+ r) = None ->
  ((download_latest fs target_dir ("tmp" +:+ r) expected_size env).1 = false ->
   (download_latest fs target_dir ("tmp" +:+ r) expected_size env).2 = fs) /\
  ((download_latest fs target_dir ("tmp" +:+ r) expected_size env).1 = true <->
   exists n, stream env = Streamed n /\ chmod_ok env = true /\
     validate_appimage (<[path_join target_dir ("tmp" +:+ r) := File n true]> fs)
       (noexec_mount env) (path_join target_dir ("tmp" +:+ r)) expected_size = true /\
     move_ok env = true) /\
  ((download_latest fs target_dir ("tmp" +:+ r) expected_size env).1 = true ->
   exists n, stream env = Streamed n /\
     (download_latest fs target_dir ("tmp" +:+ r) expected_size env).2 =
       <[path_join target_dir "nvim.appimage" := File n true]> fs).
Proof.
  intros Hfresh. unfold download_latest.
  set (tmp := path_join target_dir ("tmp" +:+ r)) in *.
  set (final := path_join target_dir "nvim.appimage").
  destruct (stream env) as [n|n].
  - rewrite !insert_insert_eq.
    destruct (chmod_ok env) eqn:Hch; simpl.
    + destruct (validate_appimage (<[tmp:=File n true]> fs) _ tmp expected_size) eqn:Hv;
        simpl.
      * destruct (move_ok env) eqn:Hm; simpl.
        -- split; [discriminate|]. split.
           ++ split; [intros _; eauto 10 | reflexivity].
           ++ intros _. exists n. split; [reflexivity|].
              rewrite delete_insert_eq, (delete_id fs tmp Hfresh). reflexivity.
        -- split; [intros _; rewrite cleanup_insert_file; now apply delete_id|].
           split; [split; [discriminate | intros [n' [[= <-] [_ [_ H]]]]; congruence]|].
           discriminate.
      * split; [intros _; rewrite delete_insert_eq; now apply delete_id|].
        split; [split; [discriminate | intros [n' [[= <-] [_ [H _]]]]; congruence]|].
        discriminate.
    + split; [intros _; rewrite cleanup_insert_file; now apply delete_id|].
      split; [split; [discriminate | intros [n' [_ [H _]]]; discriminate]|].
      discriminate.
  - simpl. rewrite !insert_insert_eq, cleanup_insert_file, (delete_id fs tmp Hfresh).
    split; [reflexivity|]. split; [split; [discriminate | intros [n' [H _]]; discriminate]|].
    discriminate.
Qed.

Lemma download_latest_atomic_witness :
  installed_fs !! path_join NVIM_DIR ("tmp" +:+ "k2x9qz1a") = None /\
  (download_latest installed_fs NVIM_DIR ("tmp" +:+ "k2x9qz1a") (Some 15000000) short_download).1
    = false /\
  (download_latest installed_fs NVIM_DIR ("tmp" +:+ "k2x9qz1a") (Some 15000000) short_download).2
    = installed_fs.
Proof.
  assert (Hfresh : installed_fs !! path_join NVIM_DIR ("tmp" +:+ "k2x9qz1a") = None)
    by reflexivity.
  assert (Hres : (download_latest installed_fs NVIM_DIR ("tmp" +:+ "k2x9qz1a")
                    (Some 15000000) short_download).1 = false) by reflexivity.
  split; [exact Hfresh|]. split; [exact Hres|].
  apply (download_latest_atomic installed_fs NVIM_DIR "k2x9qz1a" (Some 15000000)
           short_download Hfresh).
  exact Hres.
Defined.

(* ------------------------------------------------------------------ *)
(** ** The response cache *)

(** A cached entry no older than [CACHE_DURATION] whose payload is truthy
    is returned without a network call and the cache is left as it is. *)
Lemma fetch_url_hit (url : string) (cache : api_cache) (t_check t_store ts : Z)
  (d : json) (resp : Response) :
  cache !! url = Some (ts, d) -> t_check - ts <= CACHE_DURATION -> truthy d = true ->
  fetch_url url cache t_check t_store resp =
    {| fetch_result := Parsed d; fetch_cache := cache; network_called := false |}.
Proof.
  intros Hc Ht Hd. unfold fetch_url, get_cached_response. rewrite Hc.
  destruct (t_check - ts >? CACHE_DURATION) eqn:E; [apply Z.gtb_lt in E; lia|].
  now rewrite Hd.
Qed.

(** An entry older than [CACHE_DURATION] is deleted; the network is
    called and, on status 200, the fresh payload is stored at [t_store]. *)
Lemma fetch_url_expired (url : string) (cache : api_cache) (t_check t_store ts : Z)
  (d : json) (resp : Response) :
  cache !! url = Some (ts, d) -> t_check - ts > CACHE_DURATION ->
  network_called (fetch_url url cache t_check t_store resp) = true /\
  fetch_cache (fetch_url url cache t_check t_store resp) =
    if status_code resp =? 200
    then <[url := (t_store, response_json resp)]> (delete url cache)
    else delete url cache.
Proof.
  intros Hc Ht. unfold fetch_url, get_cached_response. rewrite Hc.
  destruct (t_check - ts >? CACHE_DURATION) eqn:E; [|rewrite Z.gtb_ltb in E; apply Z.ltb_ge in E; lia].
  destruct (status_code resp =? 200); split; reflexivity.
Qed.

(** With a truthy payload, a second fetch within [CACHE_DURATION] of the
    store returns the same payload without a network call. *)
Lemma fetch_url_twice (url : string) (cache : api_cache) (t1 t2 t3 t4 : Z)
  (resp resp' : Response) :
  cache !! url = None -> status_code resp = 200 -> truthy (response_json resp) = true ->
  t3 - t2 <= CACHE_DURATION ->
  let r1 := fetch_url url cache t1 t2 resp in
  let r2 := fetch_url url (fetch_cache r1) t3 t4 resp' in
  network_called r1 = true /\ fetch_result r1 = Parsed (response_json resp) /\
  network_called r2 = false /\ fetch_result r2 = Parsed (response_json resp).
Proof.
  intros Hc Hs Hd Ht r1 r2.
  assert (Hr1 : r1 = {| fetch_result := Parsed (response_json resp);
                        fetch_cache := <[url := (t2, response_json resp)]> cache;
                        network_called := true |}).
  { subst r1. unfold fetch_url, get_cached_response. rewrite Hc, Hs. reflexivity. }
  subst r2. rewrite Hr1. simpl.
  rewrite (fetch_url_hit url _ t3 t4 t2 (response_json resp) resp')
    by (try apply lookup_insert_eq; auto).
  auto.
Qed.

(** C7 (the code misses the claim): a first fetch stores the payload
    [{}] at time 1000; a second fetch at time 1010, well within the hour,
    finds the entry but [if cached_data:] treats the empty payload as a
    miss and calls the network again. *)
Theorem fetch_cache_falsy_payload_refetches :
  let r1 := fetch_latest_release ∅ 1000 1000 empty_manifest in
  let r2 := fetch_latest_release (fetch_cache r1) 1010 1010 empty_manifest in
  fetch_cache r1 !! GITHUB_API_URL = Some (1000, JObj []) /\
  fst (get_cached_response (fetch_cache r1) GITHUB_API_URL 1010) = Some (JObj []) /\
  network_called r1 = true /\ network_called r2 = true.
Proof. vm_compute. repeat split; reflexivity. Qed.

(* ------------------------------------------------------------------ *)
(** ** A failed manifest fetch in [main] *)

(** C9 (amended): [main] fetches with the process's cache still empty;
    a non-200 status makes [fetch_latest_release] raise ([ValueError])
    after the network call, and [main] does not catch it: the exception
    leaves [main] right after the install-script step, so neither the
    update, the configuration sync, the crontab, the alias nor the
    self-update runs, and no outcome value is returned. *)
Theorem fetch_error_aborts_main (t_check t_store : Z) (resp : Response) (a : Args)
  (raises : Step -> bool) (cv : option string) (apprun_exists : bool) :
  status_code resp <> 200 ->
  uninstall a = false -> config a = false -> raises SInstallScript = false ->
  fetch_result (fetch_latest_release ∅ t_check t_store resp) = FetchError (status_code resp) /\
  network_called (fetch_latest_release ∅ t_check t_store resp) = true /\
  fetch_cache (fetch_latest_release ∅ t_check t_store resp) = ∅ /\
  main a raises cv FetchRaised apprun_exists = ([SInstallScript], Raised).
Proof.
  intros Hs Hu Hc Hr.
  unfold fetch_latest_release, fetch_url, get_cached_response.
  rewrite lookup_empty. apply Z.eqb_neq in Hs. rewrite Hs. simpl.
  split; [reflexivity|]. split; [reflexivity|]. split; [reflexivity|].
  unfold main. rewrite Hu, Hc. simpl. rewrite Hr. reflexivity.
Qed.

Lemma fetch_error_aborts_main_witness :
  (status_code server_error <> 200 /\ uninstall no_flags = false /\ config no_flags = false /\
   (fun _ => false) SInstallScript = false) /\
  (fetch_result (fetch_latest_release ∅ 0 0 server_error) = FetchError 503 /\
   network_called (fetch_latest_release ∅ 0 0 server_error) = true /\
   fetch_cache (fetch_latest_release ∅ 0 0 server_error) = ∅ /\
   main no_flags (fun _ => false) (Some "0.10.1") FetchRaised true = ([SInstallScript], Raised)).
Proof.
  split; [split; [discriminate | repeat split]|].
  apply (fetch_error_aborts_main 0 0 server_error no_flags (fun _ => false) (Some "0.10.1") true);
    [discriminate | reflexivity | reflexivity | reflexivity].
Defined.

(** C9 as stated fails: after a 503 from the manifest endpoint, [main]
    does not go on to the configuration sync or the self-update and
    ends by an exception, not with a failure outcome. *)
Lemma main_fetch_error_counterexample :
  fetch_result (fetch_latest_release ∅ 0 0 server_error) = FetchError 503 /\
  ~ In SConfigSync (fst (main no_flags (fun _ => false) (Some "0.10.1") FetchRaised true)) /\
  ~ In SSelfUpdate (fst (main no_flags (fun _ => false) (Some "0.10.1") FetchRaised true)) /\
  snd (main no_flags (fun _ => false) (Some "0.10.1") FetchRaised true) = Raised.
Proof.
  vm_compute. split; [reflexivity|].
  split; [intros [H|[]]; discriminate|]. split; [intros [H|[]]; discriminate|].
  reflexivity.
Qed.

(* ------------------------------------------------------------------ *)
(** ** The command-entry symlink *)

Lemma link_is_current_lookup (u : NvimUpdater) (fs : fs_state) :
  link_is_current u fs = true -> fs !! symlink_path u = Some (Link (apprun_path u)).
Proof.
  unfold link_is_current, islink, readlink.
  destruct (fs !! symlink_path u) as [[| |t]|]; simpl; try discriminate.
  now intros ->%String.eqb_eq.
Qed.

Lemma os_symlink_lookup (target p : string) (fs fs' : fs_state) :
  os_symlink target p fs = Some fs' -> fs' !! p = Some (Link target).
Proof.
  unfold os_symlink. destruct (fs !! p); [discriminate|].
  intros [= <-]. apply lookup_insert_eq.
Qed.

(** C8 (amended): whenever [update_symlink] returns, the command-entry
    symlink is a link to the fixed launcher path [apprun_path], whether
    or not a launcher exists there. *)
Theorem update_symlink_targets_apprun (u : NvimUpdater) (fs fs' : fs_state) (refreshed : bool) :
  update_symlink u fs = Some (fs', refreshed) ->
  fs' !! symlink_path u = Some (Link (apprun_path u)).
Proof.
  unfold update_symlink. destruct (remove_legacy_link u fs) as [fs1 upd].
  destruct (link_is_current u fs1) eqn:Hc; simpl.
  - intros [= <- _]. now apply link_is_current_lookup.
  - destruct (if path_exists fs1 (symlink_path u) then os_remove (symlink_path u) fs1
              else Some fs1) as [fs2|]; [|discriminate].
    destruct (os_symlink (apprun_path u) (symlink_path u) fs2) as [fs3|] eqn:Hs;
      [|discriminate].
    intros [= <- _]. now apply (os_symlink_lookup _ _ fs2).
Qed.

Lemma update_symlink_targets_apprun_witness :
  update_symlink default_updater extracted_fs = Some (linked_fs, true) /\
  linked_fs !! symlink_path default_updater = Some (Link (apprun_path default_updater)).
Proof.
  assert (H : update_symlink default_updater extracted_fs = Some (linked_fs, true))
    by (vm_compute; reflexivity).
  split; [exact H|].
  exact (update_symlink_targets_apprun default_updater extracted_fs linked_fs true H).
Defined.

(** C8 as stated fails.  From [linked_fs], where the link resolves to
    the executable launcher: the first step of [extract_appimage] deletes
    [squashfs-root], and the link dangles while the bundle extracts; when
    the extraction fails, [update_symlink] returns and keeps the link
    pointing at the missing launcher. *)
Lemma symlink_dangles_counterexample :
  link_usable default_updater linked_fs = true /\
  remove_old_extraction default_updater linked_fs !! SYMLINK_PATH = Some (Link APPRUN_PATH) /\
  link_usable default_updater (remove_old_extraction default_updater linked_fs) = false /\
  exists fs',
    update_symlink default_updater (extract_appimage default_updater false linked_fs)
      = Some (fs', false) /\
    fs' !! SYMLINK_PATH = Some (Link APPRUN_PATH) /\
    link_usable default_updater fs' = false.
Proof.
  split; [vm_compute; reflexivity|]. split; [vm_compute; reflexivity|].
  split; [vm_compute; reflexivity|].
  eexists. split; [vm_compute; reflexivity|]. split; vm_compute; reflexivity.
Qed.

(* ================================================================== *)
(** * Further properties of the updater *)

(** ** The version probe *)

Lemma line_break_space (c : ascii) :
  PySplit.is_line_break c = true -> PySplit.is_space c = true.
Proof.
  unfold PySplit.is_line_break, PySplit.is_space.
  rewrite !orb_true_iff, !andb_true_iff, !Nat.leb_le. lia.
Qed.

Lemma take_line_app (v rest : string) :
  no_space v = true -> PySplit.take_line (v +:+ newline +:+ rest) = v.
Proof.
  induction v as [|c v IH]; simpl_app; [reflexivity|].
  unfold no_space; simpl. rewrite andb_true_iff, negb_true_iff. intros [Hc Hv].
  destruct (PySplit.is_line_break c) eqn:E; [apply line_break_space in E; congruence|].
  f_equal. now apply IH.
Qed.

Lemma nvim_prefix_no_space (s : string) :
  no_space s = true -> String.prefix "NVIM v" s = false.
Proof.
  intros H. destruct (String.prefix "NVIM v" s) eqn:E; [|reflexivity].
  apply prefix_spec in E as [suf ->]. unfold no_space in H. simpl_app. discriminate.
Qed.

Lemma upto_eq (sep s : string) :
  PySplit.upto sep s =
  if String.prefix sep s then EmptyString
  else match s with
       | EmptyString => EmptyString
       | String c s' => String c (PySplit.upto sep s')
       end.
Proof. destruct s; reflexivity. Qed.

Lemma upto_no_space (s : string) : no_space s = true -> PySplit.upto "NVIM v" s = s.
Proof.
  induction s as [|c s IH]; intros H; [reflexivity|].
  rewrite upto_eq, (nvim_prefix_no_space _ H). f_equal. apply IH.
  unfold no_space in *; simpl in H. now apply andb_true_iff in H as [_ H].
Qed.

Lemma skip_take_no_space (s : string) :
  no_space s = true -> PySplit.skip_space s = s /\ PySplit.take_word s = s.
Proof.
  destruct s as [|c s]; [auto|]. unfold no_space. simpl.
  rewrite andb_true_iff, negb_true_iff. intros [Hc Hs]. rewrite Hc. split; [reflexivity|].
  f_equal. revert Hs. induction s as [|d s IH]; simpl; [auto|].
  rewrite andb_true_iff, negb_true_iff. intros [Hd Hs]. rewrite Hd. f_equal. auto.
Qed.

Lemma take_word_no_space (s : string) : no_space (PySplit.take_word s) = true.
Proof.
  induction s as [|c s IH]; [reflexivity|]. simpl.
  destruct (PySplit.is_space c) eqn:E; [reflexivity|]. unfold no_space in *. simpl.
  now rewrite E, IH.
Qed.

Lemma take_line_prefix (s : string) : exists r, s = PySplit.take_line s +:+ r.
Proof.
  induction s as [|c s [r IH]]; [exists ""%string; reflexivity|]. simpl.
  destruct (PySplit.is_line_break c); [exists (String c s); reflexivity|].
  exists r. simpl_app. congruence.
Qed.

Lemma string_app_assoc (a b c : string) : (a +:+ b) +:+ c = a +:+ (b +:+ c).
Proof. induction a as [|x a IH]; simpl_app; congruence. Qed.

Lemma get_installed_version_banner (v rest : string) :
  v <> ""%string -> no_space v = true ->
  get_installed_version (Some (0, "NVIM v" +:+ v +:+ newline +:+ rest)) = Some v.
Proof.
  intros Hne Hv. unfold get_installed_version. simpl (0 =? 0).
  cbv iota.
  assert (Hfl : PySplit.first_line ("NVIM v" +:+ v +:+ newline +:+ rest) = Some ("NVIM v" +:+ v)).
  { unfold PySplit.first_line. simpl_app. simpl. f_equal. simpl_app. f_equal.
    now rewrite (take_line_app v rest Hv). }
  rewrite Hfl. simpl_app. simpl.
  unfold PySplit.second_field. simpl. rewrite (upto_no_space v Hv).
  unfold PySplit.first_word. destruct (skip_take_no_space v Hv) as [-> ->].
  destruct v; [congruence | reflexivity].
Qed.

(** X1: the launcher's banner "NVIM v<version>" on the first line gives
    that version, whatever follows on the next lines, for every
    non-empty version without whitespace. *)
Theorem get_installed_version_parses (v rest : string) :
  v <> ""%string -> no_space v = true ->
  get_installed_version (Some (0, "NVIM v" +:+ v +:+ newline +:+ rest)) = Some v.
Proof. apply get_installed_version_banner. Qed.

Lemma get_installed_version_parses_witness :
  ("0.10.2" <> ""%string /\ no_space "0.10.2" = true) /\
  get_installed_version (Some (0, "NVIM v" +:+ "0.10.2" +:+ newline +:+ "Build type: Release"))
    = Some "0.10.2"%string.
Proof.
  split; [split; [discriminate | reflexivity]|].
  apply get_installed_version_parses; [discriminate | reflexivity].
Defined.


(** X2: a detected version is never empty and holds no whitespace, and
    it only comes from a probe that exited with status 0 and whose output
    starts with "NVIM v". *)
Theorem get_installed_version_shape (probe : option (Z * string)) (v : string) :
  get_installed_version probe = Some v ->
  exists stdout, probe = Some (0, stdout) /\ String.prefix "NVIM v" stdout = true /\
    v <> ""%string /\ no_space v = true.
Proof.
  destruct probe as [[rc out]|]; simpl; [|discriminate].
  destruct (rc =? 0) eqn:Erc; [|discriminate]. apply Z.eqb_eq in Erc as ->.
  destruct (PySplit.first_line out) as [fl|] eqn:Efl; [|discriminate].
  destruct (String.prefix "NVIM v" fl) eqn:Ep; [|discriminate].
  intros Hw. exists out. split; [reflexivity|]. split.
  - assert (Hfl : fl = PySplit.take_line out)
      by (destruct out; [discriminate | now injection Efl as <-]).
    destruct (take_line_prefix out) as [r Hr]. rewrite <- Hfl in Hr.
    apply prefix_spec in Ep as [suf ->]. apply prefix_spec. exists (suf +:+ r).
    rewrite Hr. apply string_app_assoc.
  - unfold PySplit.first_word in Hw.
    pose proof (take_word_no_space (PySplit.skip_space (PySplit.second_field "NVIM v" fl))) as Hn.
    destruct (PySplit.take_word _) as [|c w]; [discriminate|].
    injection Hw as <-. split; [discriminate | exact Hn].
Qed.

Lemma get_installed_version_shape_witness :
  get_installed_version (Some (0, nvim_version_output)) = Some "0.10.2"%string /\
  exists stdout, Some (0, nvim_version_output) = Some (0, stdout) /\
    String.prefix "NVIM v" stdout = true /\ "0.10.2" <> ""%string /\ no_space "0.10.2" = true.
Proof.
  assert (H : get_installed_version (Some (0, nvim_version_output)) = Some "0.10.2"%string)
    by (vm_compute; reflexivity).
  split; [exact H|]. exact (get_installed_version_shape _ _ H).
Defined.


Lemma lstrip_v_keep (v : string) : Regex.head v <> Some "v"%char -> PyStr.lstrip_v v = v.
Proof.
  destruct v as [|c v]; [reflexivity|]. simpl. intros H.
  destruct (Ascii.eqb c "v") eqn:E; [apply Ascii.eqb_eq in E; congruence | reflexivity].
Qed.

(** X3: when the installed launcher prints the banner of the version the
    latest release is tagged with (tag "v" + version, version not itself
    starting with 'v'), [main] does not download: the probe's version
    and the tag agree after [lstrip("v")]. *)
Theorem main_banner_current_no_download (a : Args) (raises : Step -> bool)
  (v rest : string) (latest : ReleaseInfo) :
  uninstall a = false -> config a = false -> raises SInstallScript = false ->
  v <> ""%string -> no_space v = true -> Regex.head v <> Some "v"%char ->
  tag_name latest = ("v" +:+ v)%string ->
  ~ In SDownloadAndInstall
      (fst (main a raises (get_installed_version (Some (0, "NVIM v" +:+ v +:+ newline +:+ rest)))
              (FetchReturned latest) true)).
Proof.
  intros Hu Hc Hr Hne Hv Hh Ht.
  rewrite (get_installed_version_banner v rest Hne Hv), (main_trace a raises _ latest true Hu Hc Hr).
  assert (Hn : needs_update (Some v) (tag_name latest) true = false).
  { unfold needs_update. rewrite Ht. simpl_app. simpl.
    rewrite (lstrip_v_keep v Hh), String.eqb_refl. reflexivity. }
  rewrite Hn. intros [H|H]; [discriminate|].
  apply run_steps_sub in H. simpl in H. intuition discriminate.
Qed.

Lemma main_banner_current_no_download_witness :
  (uninstall no_flags = false /\ config no_flags = false /\ (fun _ => false) SInstallScript = false /\
   "0.10.2" <> ""%string /\ no_space "0.10.2" = true /\
   Regex.head "0.10.2" <> Some "v"%char /\ tag_name release_v0_10_2 = ("v" +:+ "0.10.2")%string) /\
  ~ In SDownloadAndInstall
      (fst (main no_flags (fun _ => false)
              (get_installed_version (Some (0, "NVIM v" +:+ "0.10.2" +:+ newline +:+ "Build type: Release")))
              (FetchReturned release_v0_10_2) true)).
Proof.
  split; [repeat split; try reflexivity; discriminate|].
  apply main_banner_current_no_download; try reflexivity; discriminate.
Defined.


(** ** [from_dict] *)

Lemma map_option_assets (l : list RawAsset) :
  map_option asset_from_dict (map asset_to_json l) = Some l.
Proof.
  induction l as [|a l IH]; [reflexivity|]. simpl.
  rewrite IH. destruct a. reflexivity.
Qed.

(** X4: the release object as the API serves it, with any values under
    its keys and any number of assets, is read back by
    [ReleaseInfo.from_dict] field for field. *)
Theorem release_from_dict_roundtrip (r : RawRelease) :
  release_from_dict (release_to_json r) = Some r.
Proof.
  destruct r as [t n b l p d]. unfold release_from_dict. simpl.
  rewrite map_option_assets. reflexivity.
Qed.

(** X5: a payload object lacking any of the keys [from_dict] reads
    raises ([KeyError]). *)
Theorem release_from_dict_missing_key (fields : list (string * json)) (key : string) :
  In key ["assets"; "tag_name"; "name"; "body"; "prerelease"; "draft"]%string ->
  jget key fields = None ->
  release_from_dict (JObj fields) = None.
Proof.
  intros Hk Hn. unfold release_from_dict, subscript.
  destruct (jget "assets" fields) as [items|] eqn:Ea; simpl; [|reflexivity].
  destruct (iter_json items) as [elems|]; simpl; [|reflexivity].
  destruct (map_option asset_from_dict elems) as [assets|]; simpl; [|reflexivity].
  simpl in Hk.
  destruct Hk as [<-|[<-|[<-|[<-|[<-|[<-|[]]]]]]]; [congruence| | | | |];
    rewrite Hn; simpl;
    repeat match goal with
           | |- context [jget ?k fields] => destruct (jget k fields); simpl
           end; reflexivity.
Qed.

Lemma release_from_dict_missing_key_witness :
  (In "assets"%string ["assets"; "tag_name"; "name"; "body"; "prerelease"; "draft"]%string /\
   jget "assets" [("tag_name", JStr "v0.10.2")] = None) /\
  release_from_dict (JObj [("tag_name", JStr "v0.10.2")]) = None.
Proof.
  split; [split; [left; reflexivity | reflexivity]|].
  apply (release_from_dict_missing_key _ "assets"); [left; reflexivity | reflexivity].
Defined.


(** X6: a first fetch answered 200 with a non-empty payload that is not
    a release stores the payload and raises in [from_dict]; every fetch
    within the following [CACHE_DURATION] seconds reads the stored
    payload without calling the network and raises again, whatever the
    server would answer by then. *)
Theorem malformed_manifest_stays_cached (cache : api_cache) (t1 t2 t3 t4 : Z)
  (resp resp' : Response) :
  cache !! GITHUB_API_URL = None -> status_code resp = 200 ->
  truthy (response_json resp) = true -> release_from_dict (response_json resp) = None ->
  t3 - t2 <= CACHE_DURATION ->
  let r1 := fetch_latest_release cache t1 t2 resp in
  let r2 := fetch_latest_release (fetch_cache r1) t3 t4 resp' in
  network_called r1 = true /\ parsed_release r1 = None /\
  fetch_cache r1 !! GITHUB_API_URL = Some (t2, response_json resp) /\
  network_called r2 = false /\ parsed_release r2 = None.
Proof.
  intros Hc Hs Hd Hp Ht r1 r2.
  assert (Hr1 : r1 = {| fetch_result := Parsed (response_json resp);
                        fetch_cache := <[GITHUB_API_URL := (t2, response_json resp)]> cache;
                        network_called := true |}).
  { subst r1. unfold fetch_latest_release, fetch_url, get_cached_response.
    rewrite Hc, Hs. reflexivity. }
  subst r2. rewrite Hr1. unfold parsed_release. simpl.
  rewrite (fetch_url_hit GITHUB_API_URL _ t3 t4 t2 (response_json resp) resp')
    by (try apply lookup_insert_eq; auto).
  simpl. rewrite Hp, lookup_insert_eq. auto.
Qed.

Lemma malformed_manifest_stays_cached_witness :
  ((∅ : api_cache) !! GITHUB_API_URL = None /\ status_code partial_response = 200 /\
   truthy (response_json partial_response) = true /\
   release_from_dict (response_json partial_response) = None /\ 1010 - 1000 <= CACHE_DURATION) /\
  (let r1 := fetch_latest_release ∅ 1000 1000 partial_response in
   let r2 := fetch_latest_release (fetch_cache r1) 1010 1010 partial_response in
   network_called r1 = true /\ parsed_release r1 = None /\
   fetch_cache r1 !! GITHUB_API_URL = Some (1000, response_json partial_response) /\
   network_called r2 = false /\ parsed_release r2 = None).
Proof.
  split; [repeat split; vm_compute; try reflexivity; discriminate|].
  apply malformed_manifest_stays_cached; vm_compute; try reflexivity; discriminate.
Defined.


(** ** download and install *)



Lemma download_latest_failed (fs : fs_state) (d r : string) (e : option Z) (env : DownloadEnv) :
  fs !! path_join d ("tmp" +:+ r) = None ->
  (download_latest fs d ("tmp" +:+ r) e env).1 = false ->
  (download_latest fs d ("tmp" +:+ r) e env).2 = fs.
Proof.
  intros Hfresh. unfold download_latest.
  set (tmp := path_join d ("tmp" +:+ r)) in *.
  destruct (stream env) as [n|n].
  - rewrite !insert_insert_eq.
    destruct (chmod_ok env); simpl.
    + destruct (validate_appimage _ _ tmp e); simpl.
      * destruct (move_ok env); simpl; [discriminate|].
        intros _. rewrite cleanup_insert_file. now apply delete_id.
      * intros _. rewrite delete_insert_eq. now apply delete_id.
    + intros _. rewrite cleanup_insert_file. now apply delete_id.
  - simpl. intros _. rewrite !insert_insert_eq, cleanup_insert_file. now apply delete_id.
Qed.




(** X8: when no asset of the release is an AppImage with a recognisable
    architecture (all are skipped as non-AppImage or metadata, or name no
    architecture), [download_and_install] raises ([ValueError]) instead
    of returning False. *)
Theorem download_and_install_no_appimage_raises (u : NvimUpdater) (fs : fs_state)
  (arch : Architecture) (r : ReleaseInfo) (tmp : string) (env : DownloadEnv)
  (extracted : bool) :
  (forall a, In a (assets r) ->
     skipped (PyStr.lower (asset_name a)) = true \/
     detect_from_name (PyStr.lower (asset_name a)) = None) ->
  download_and_install u fs (Some arch) (Some r) tmp env extracted = None.
Proof.
  intros H.
  assert (Hf : find_appimage_asset arch (assets r) = None).
  { apply find_appimage_asset_None, candidates_nil. intros a Ha.
    now apply (candidate_None arch a), H. }
  unfold download_and_install, download_latest_full, get_appimage_url. now rewrite Hf.
Qed.

Lemma download_and_install_no_appimage_raises_witness :
  (forall a, In a (assets release_zsync_only) ->
     skipped (PyStr.lower (asset_name a)) = true \/
     detect_from_name (PyStr.lower (asset_name a)) = None) /\
  download_and_install default_updater installed_fs (Some X86_64) (Some release_zsync_only)
    ("tmp" +:+ "k2x9qz1a") full_download true = None.
Proof.
  assert (H : forall a, In a (assets release_zsync_only) ->
            skipped (PyStr.lower (asset_name a)) = true \/
            detect_from_name (PyStr.lower (asset_name a)) = None).
  { intros a [<-|[]]. left. vm_compute. reflexivity. }
  split; [exact H|]. exact (download_and_install_no_appimage_raises _ _ _ _ _ _ _ H).
Defined.


(** X9: whenever [download_and_install] returns False, the file system is
    as before: the temporary file is gone and neither the bundle, the
    extraction nor the command-entry link changed. *)
Theorem download_and_install_false_unchanged (u : NvimUpdater) (fs fs' : fs_state)
  (arch : option Architecture) (r : option ReleaseInfo) (t : string) (env : DownloadEnv)
  (extracted : bool) :
  fs !! path_join (nvim_dir u) ("tmp" +:+ t) = None ->
  download_and_install u fs arch r ("tmp" +:+ t) env extracted = Some (false, fs') ->
  fs' = fs.
Proof.
  intros Hfresh. unfold download_and_install.
  destruct (download_latest_full arch r fs (nvim_dir u) ("tmp" +:+ t) env)
    as [[[|] fs1]|] eqn:E.
  - destruct (update_symlink u _) as [[fs2 b]|]; discriminate.
  - intros [= <-]. unfold download_latest_full in E.
    destruct arch as [a|]; [|discriminate]. destruct r as [rel|]; [|discriminate].
    destruct (get_appimage_url rel a) as [url|]; [|discriminate].
    destruct (String.eqb url ""); [discriminate|].
    injection E as E.
    pose proof (download_latest_failed fs (nvim_dir u) t (get_appimage_size rel a) env Hfresh)
      as Hfs.
    rewrite E in Hfs. now apply Hfs.
  - discriminate.
Qed.

Lemma download_and_install_false_unchanged_witness :
  (installed_fs !! path_join NVIM_DIR ("tmp" +:+ "k2x9qz1a") = None /\
   download_and_install default_updater installed_fs (Some X86_64) (Some release_v0_10_2)
     ("tmp" +:+ "k2x9qz1a") short_download true = Some (false, installed_fs)) /\
  installed_fs = installed_fs.
Proof.
  assert (H1 : installed_fs !! path_join NVIM_DIR ("tmp" +:+ "k2x9qz1a") = None) by reflexivity.
  assert (H2 : download_and_install default_updater installed_fs (Some X86_64) (Some release_v0_10_2)
                 ("tmp" +:+ "k2x9qz1a") short_download true = Some (false, installed_fs))
    by (vm_compute; reflexivity).
  split; [split; [exact H1 | exact H2]|].
  exact (download_and_install_false_unchanged default_updater installed_fs installed_fs
           (Some X86_64) (Some release_v0_10_2) "k2x9qz1a" short_download true H1 H2).
Defined.


(** ** the command-entry symlink *)

Lemma resolve_link (fuel : nat) (fs : fs_state) (p t : string) :
  fs !! p = Some (Link t) -> resolve (S fuel) fs p = resolve fuel fs t.
Proof. simpl. now intros ->. Qed.

Lemma resolve_missing (fuel : nat) (fs : fs_state) (p : string) :
  fs !! p = None -> resolve (S fuel) fs p = None.
Proof. simpl. now intros ->. Qed.

Lemma update_symlink_link (u : NvimUpdater) (fs fs' : fs_state) (b : bool) :
  update_symlink u fs = Some (fs', b) -> fs' !! symlink_path u = Some (Link (apprun_path u)).
Proof.
  unfold update_symlink. destruct (remove_legacy_link u fs) as [fs1 upd].
  destruct (link_is_current u fs1) eqn:Hc; simpl.
  - intros [= <- _]. now apply link_is_current_lookup.
  - destruct (if path_exists fs1 (symlink_path u) then os_remove (symlink_path u) fs1
              else Some fs1) as [fs2|]; [|discriminate].
    destruct (os_symlink (apprun_path u) (symlink_path u) fs2) as [fs3|] eqn:Hs;
      [|discriminate].
    intros [= <- _]. now apply (os_symlink_lookup _ _ fs2).
Qed.

Lemma remove_legacy_link_lookup (u : NvimUpdater) (fs : fs_state) (p : string) :
  p <> path_join (nvim_dir u) "nvim" -> (remove_legacy_link u fs).1 !! p = fs !! p.
Proof.
  intros Hp. unfold remove_legacy_link.
  destruct (islink fs _); simpl; [now apply lookup_delete_ne | reflexivity].
Qed.

Lemma remove_legacy_link_gone (u : NvimUpdater) (fs : fs_state) :
  islink (remove_legacy_link u fs).1 (path_join (nvim_dir u) "nvim") = false.
Proof.
  unfold remove_legacy_link. destruct (islink fs _) eqn:E; simpl; [|exact E].
  unfold islink. now rewrite lookup_delete_eq.
Qed.

(** Apart from the command-entry path and the legacy link, every entry
    [update_symlink] could touch stays as it was; the legacy link is
    gone when it differs from the command entry. *)
Lemma update_symlink_frame (u : NvimUpdater) (fs fs' : fs_state) (b : bool) :
  update_symlink u fs = Some (fs', b) ->
  (forall p, p <> symlink_path u -> p <> path_join (nvim_dir u) "nvim" -> fs' !! p = fs !! p) /\
  (path_join (nvim_dir u) "nvim" <> symlink_path u ->
   islink fs' (path_join (nvim_dir u) "nvim") = false).
Proof.
  set (old := path_join (nvim_dir u) "nvim").
  pose proof (remove_legacy_link_lookup u fs) as Hl.
  pose proof (remove_legacy_link_gone u fs) as Hg.
  unfold update_symlink. destruct (remove_legacy_link u fs) as [fs1 upd]. simpl in Hl, Hg.
  destruct (link_is_current u fs1); simpl.
  - intros [= <- _]. split; [intros p Hp Ho; now apply Hl | auto].
  - destruct (path_exists fs1 (symlink_path u)).
    + unfold os_remove. destruct (fs1 !! symlink_path u) as [[| |]|] eqn:Ed;
        try discriminate;
        (unfold os_symlink; rewrite lookup_delete_eq; intros [= <- _];
         split; [intros p Hp Ho; rewrite lookup_insert_ne, lookup_delete_ne by congruence;
                 now apply Hl
                |intros Hne; unfold islink;
                 rewrite lookup_insert_ne, lookup_delete_ne by congruence; exact Hg]).
    + unfold os_symlink. destruct (fs1 !! symlink_path u); [discriminate|].
      intros [= <- _]. split.
      * intros p Hp Ho. rewrite lookup_insert_ne by congruence. now apply Hl.
      * intros Hne. unfold islink. rewrite lookup_insert_ne by congruence. exact Hg.
Qed.

(** X10: when [download_and_install] returns True and the bundle
    extracted, and the launcher path is the [AppRun] of the extraction
    directory (distinct from the command entry and the legacy link), the
    command entry resolves to the executable launcher. *)
Theorem download_and_install_link_usable (u : NvimUpdater) (fs fs' : fs_state)
  (arch : option Architecture) (r : option ReleaseInfo) (tmp : string) (env : DownloadEnv) :
  apprun_path u = path_join (extract_path u) "AppRun" ->
  apprun_path u <> symlink_path u -> apprun_path u <> path_join (nvim_dir u) "nvim" ->
  download_and_install u fs arch r tmp env true = Some (true, fs') ->
  link_usable u fs' = true.
Proof.
  intros Ha Hs Ho. unfold download_and_install.
  destruct (download_latest_full arch r fs (nvim_dir u) tmp env) as [[[|] fs1]|];
    try discriminate.
  destruct (update_symlink u (extract_appimage u true fs1)) as [[fs2 b]|] eqn:Hu;
    [|discriminate].
  intros [= <-].
  pose proof (update_symlink_link _ _ _ _ Hu) as Hl.
  destruct (update_symlink_frame _ _ _ _ Hu) as [Hf _].
  assert (Hx : fs2 !! apprun_path u = Some (File 1 true)).
  { rewrite (Hf _ Hs Ho). unfold extract_appimage, run_extraction.
    rewrite Ha. apply lookup_insert_eq. }
  unfold link_usable. rewrite (resolve_link 39 fs2 _ _ Hl), (resolve_file 38 fs2 _ 1 true Hx).
  reflexivity.
Qed.

Lemma download_and_install_link_usable_witness :
  (apprun_path default_updater = path_join (extract_path default_updater) "AppRun" /\
   apprun_path default_updater <> symlink_path default_updater /\
   apprun_path default_updater <> path_join (nvim_dir default_updater) "nvim" /\
   download_and_install default_updater ∅ (Some X86_64) (Some release_v0_10_2)
     ("tmp" +:+ "k2x9qz1a") full_download true = Some (true, linked_fs)) /\
  link_usable default_updater linked_fs = true.
Proof.
  assert (H : download_and_install default_updater ∅ (Some X86_64) (Some release_v0_10_2)
                ("tmp" +:+ "k2x9qz1a") full_download true = Some (true, linked_fs))
    by (vm_compute; reflexivity).
  split; [split; [reflexivity | split; [discriminate | split; [discriminate | exact H]]]|].
  apply (download_and_install_link_usable default_updater ∅ linked_fs (Some X86_64)
           (Some release_v0_10_2) ("tmp" +:+ "k2x9qz1a") full_download);
    [reflexivity | discriminate | discriminate | exact H].
Defined.


(** X11: a command-entry link left pointing at a missing file other than
    the launcher makes [update_symlink] raise: [os.path.exists] follows
    the dangling link and reports False, so the link is not removed, and
    [os.symlink] fails on the existing entry ([FileExistsError]). *)
Theorem update_symlink_dangling_entry_raises (u : NvimUpdater) (fs : fs_state) (t : string) :
  path_join (nvim_dir u) "nvim" <> symlink_path u ->
  fs !! symlink_path u = Some (Link t) -> t <> apprun_path u -> fs !! t = None ->
  update_symlink u fs = None.
Proof.
  intros Ho Hl Ht Hm.
  pose proof (remove_legacy_link_lookup u fs (symlink_path u) (not_eq_sym Ho)) as Hl1.
  assert (Hm1 : (remove_legacy_link u fs).1 !! t = None).
  { unfold remove_legacy_link. destruct (islink fs _); simpl; [|exact Hm].
    destruct (decide (path_join (nvim_dir u) "nvim" = t)) as [<-|Hne];
      [apply lookup_delete_eq | now rewrite lookup_delete_ne]. }
  unfold update_symlink. destruct (remove_legacy_link u fs) as [fs1 upd]. simpl in Hl1, Hm1.
  rewrite Hl in Hl1.
  assert (Hc : link_is_current u fs1 = false).
  { unfold link_is_current, islink, readlink. rewrite Hl1. simpl.
    now apply String.eqb_neq. }
  assert (He : path_exists fs1 (symlink_path u) = false).
  { unfold path_exists. now rewrite (resolve_link 39 fs1 _ _ Hl1), (resolve_missing 38 fs1 _ Hm1). }
  rewrite Hc, He. simpl. unfold os_symlink. now rewrite Hl1.
Qed.

Lemma update_symlink_dangling_entry_raises_witness :
  (path_join (nvim_dir default_updater) "nvim" <> symlink_path default_updater /\
   stale_link_fs !! symlink_path default_updater = Some (Link "/opt/nvim-0.9/AppRun") /\
   "/opt/nvim-0.9/AppRun"%string <> apprun_path default_updater /\
   stale_link_fs !! "/opt/nvim-0.9/AppRun"%string = None) /\
  update_symlink default_updater stale_link_fs = None.
Proof.
  split; [repeat split; vm_compute; try reflexivity; discriminate|].
  apply (update_symlink_dangling_entry_raises _ _ "/opt/nvim-0.9/AppRun");
    vm_compute; try reflexivity; discriminate.
Defined.


(** X12: [update_symlink] is idempotent: right after a run that returned,
    a second run changes nothing and refreshes no shell cache (when the
    legacy link path differs from the command entry). *)
Theorem update_symlink_idempotent (u : NvimUpdater) (fs fs' : fs_state) (b : bool) :
  path_join (nvim_dir u) "nvim" <> symlink_path u ->
  update_symlink u fs = Some (fs', b) ->
  update_symlink u fs' = Some (fs', false).
Proof.
  intros Ho Hu.
  pose proof (update_symlink_link _ _ _ _ Hu) as Hl.
  destruct (update_symlink_frame _ _ _ _ Hu) as [_ Hg]. specialize (Hg Ho).
  unfold update_symlink, remove_legacy_link. rewrite Hg.
  assert (Hc : link_is_current u fs' = true).
  { unfold link_is_current, islink, readlink. rewrite Hl. simpl. apply String.eqb_refl. }
  now rewrite Hc.
Qed.

Lemma update_symlink_idempotent_witness :
  (path_join (nvim_dir default_updater) "nvim" <> symlink_path default_updater /\
   update_symlink default_updater extracted_fs = Some (linked_fs, true)) /\
  update_symlink default_updater linked_fs = Some (linked_fs, false).
Proof.
  assert (H : update_symlink default_updater extracted_fs = Some (linked_fs, true))
    by (vm_compute; reflexivity).
  split; [split; [vm_compute; discriminate | exact H]|].
  apply (update_symlink_idempotent default_updater extracted_fs linked_fs true);
    [vm_compute; discriminate | exact H].
Defined.


(** ** ties between AppImages *)

Lemma sorted_desc_nil {A} (l : list (Z * A)) : sorted_desc l = [] -> l = [].
Proof. destruct l as [|h t]; [auto|]. simpl. intros H. now apply insert_desc_not_nil in H. Qed.

(** The head of the stable descending sort is the first element, in the
    original order, among those with the largest key. *)
Lemma sorted_desc_head_first {A} (l : list (Z * A)) (x : Z * A) (rest : list (Z * A)) :
  sorted_desc l = x :: rest ->
  exists pre post, l = pre ++ x :: post /\
    Forall (fun y => fst y < fst x) pre /\ Forall (fun y => fst y <= fst x) post.
Proof.
  revert x rest. induction l as [|h t IH]; intros x rest; [discriminate|].
  change (sorted_desc (h :: t)) with (insert_desc h (sorted_desc t)).
  pose proof (sorted_desc_head_max t) as Hmax.
  pose proof (fun y => proj1 (sorted_desc_In t y)) as Hin.
  pose proof (fun y => proj2 (sorted_desc_In t y)) as Hin'.
  destruct (sorted_desc t) as [|y ys] eqn:E.
  - simpl. intros [= <- <-]. apply sorted_desc_nil in E as ->.
    exists [], []. repeat split; constructor.
  - simpl. destruct (fst y <=? fst h) eqn:Ey.
    + intros [= <- <-]. apply Z.leb_le in Ey. exists [], t. split; [reflexivity|].
      split; [constructor|]. apply List.Forall_forall. intros z Hz.
      specialize (Hmax z (Hin' z Hz)). lia.
    + intros [= <- Hr]. apply Z.leb_gt in Ey.
      destruct (IH y ys eq_refl) as [pre [post [-> [Hpre Hpost]]]].
      exists (h :: pre), post. split; [reflexivity|]. split; [|exact Hpost].
      constructor; [simpl; lia | exact Hpre].
Qed.

Lemma candidates_app_inv (arch : Architecture) (l : list ReleaseAsset)
  (cpre cpost : list (Z * ReleaseAsset)) (s : Z) (a : ReleaseAsset) :
  candidates arch l = cpre ++ (s, a) :: cpost ->
  exists pre post, l = pre ++ a :: post /\ candidate arch a = Some (s, a) /\
    candidates arch pre = cpre /\ candidates arch post = cpost.
Proof.
  revert cpre. induction l as [|h t IH]; intros cpre; simpl.
  - destruct cpre; discriminate.
  - destruct (candidate arch h) as [c|] eqn:Eh.
    + destruct cpre as [|c' cpre]; simpl.
      * intros [= -> <-]. pose proof (candidate_same _ _ _ _ Eh) as ->.
        exists [], t. auto.
      * intros [= -> Ht]. destruct (IH cpre Ht) as [pre [post [-> [Ha [Hp Hq]]]]].
        exists (h :: pre), post. simpl. rewrite Eh, Hp. auto.
    + intros Ht. destruct (IH cpre Ht) as [pre [post [-> [Ha [Hp Hq]]]]].
      exists (h :: pre), post. simpl. rewrite Eh. auto.
Qed.

(** X13: ties are broken by the release's asset order: the asset
    returned scores strictly more than every candidate listed before it
    and at least as much as every candidate listed after it. *)
Theorem find_appimage_asset_first_of_best (arch : Architecture) (l : list ReleaseAsset)
  (a : ReleaseAsset) :
  find_appimage_asset arch l = Some a ->
  exists pre post s, l = pre ++ a :: post /\ candidate arch a = Some (s, a) /\
    (forall b s', In b pre -> candidate arch b = Some (s', b) -> s' < s) /\
    (forall b s', In b post -> candidate arch b = Some (s', b) -> s' <= s).
Proof.
  unfold find_appimage_asset.
  destruct (sorted_desc (candidates arch l)) as [|[s b] rest] eqn:E; [discriminate|].
  intros [= ->].
  destruct (sorted_desc_head_first _ _ _ E) as [cpre [cpost [Hc [Hpre Hpost]]]].
  destruct (candidates_app_inv _ _ _ _ _ _ Hc) as [pre [post [-> [Ha [Hp Hq]]]]].
  exists pre, post, s. split; [reflexivity|]. split; [exact Ha|]. split.
  - intros b s' Hb Hcb. rewrite List.Forall_forall in Hpre.
    apply (Hpre (s', b)). rewrite <- Hp. now apply candidates_In.
  - intros b s' Hb Hcb. rewrite List.Forall_forall in Hpost.
    apply (Hpost (s', b)). rewrite <- Hq. now apply candidates_In.
Qed.

Lemma find_appimage_asset_first_of_best_witness :
  find_appimage_asset X86_64 tied_assets = Some (mk_asset "nvim-linux-x86_64.appimage" 15000000) /\
  exists pre post s,
    tied_assets = pre ++ mk_asset "nvim-linux-x86_64.appimage" 15000000 :: post /\
    candidate X86_64 (mk_asset "nvim-linux-x86_64.appimage" 15000000) =
      Some (s, mk_asset "nvim-linux-x86_64.appimage" 15000000) /\
    (forall b s', In b pre -> candidate X86_64 b = Some (s', b) -> s' < s) /\
    (forall b s', In b post -> candidate X86_64 b = Some (s', b) -> s' <= s).
Proof.
  assert (H : find_appimage_asset X86_64 tied_assets =
              Some (mk_asset "nvim-linux-x86_64.appimage" 15000000)) by (vm_compute; reflexivity).
  split; [exact H|]. exact (find_appimage_asset_first_of_best _ _ _ H).
Defined.


(** ** the configuration backup *)

Lemma space_not_blank (c : ascii) : PySplit.is_space c = false -> Ascii.eqb c " " = false.
Proof.
  intros H. destruct (Ascii.eqb c " ") eqn:E; [|reflexivity].
  apply Ascii.eqb_eq in E as ->. discriminate.
Qed.

Lemma status_one_char (c : ascii) :
  (String.eqb (PyStr.lower (String c EmptyString)) "m" ||
   String.eqb (PyStr.lower (String c EmptyString)) "a")%bool = is_m_or_a c.
Proof.
  unfold is_m_or_a.
  change (PyStr.lower (String c EmptyString)) with (String (PyStr.lower_char c) EmptyString).
  generalize (PyStr.lower_char c) as l. intros l. cbn [String.eqb].
  destruct (Ascii.eqb l "m"), (Ascii.eqb l "a"); reflexivity.
Qed.

(** X14: for a [git status --porcelain] line "XY PATH" (each status
    column a space or a non-blank letter, not both spaces; the path not
    starting with whitespace) [update_repo] backs up PATH exactly when
    one column is a space and the other is M or A: files with two-letter
    codes such as MM, AM or MD, untracked, deleted and renamed files are
    not backed up before [git reset --hard]. *)
Theorem backup_target_porcelain (x y c : ascii) (p : string) :
  (x = " "%char \/ PySplit.is_space x = false) ->
  (y = " "%char \/ PySplit.is_space y = false) ->
  ~ (x = " "%char /\ y = " "%char) -> PySplit.is_space c = false ->
  backup_target (String x (String y (String " " (String c p)))) =
    if porcelain_backed_up x y then Some (String c p) else None.
Proof.
  intros Hx Hy Hxy Hc. unfold backup_target, PySplit.split_max1, porcelain_backed_up.
  assert (Hb : PySplit.is_space " " = true) by reflexivity.
  destruct Hx as [->|Hx]; destruct Hy as [->|Hy]; [tauto| | |];
    repeat progress (cbn [PySplit.skip_space PySplit.drop_word PySplit.take_word];
                     rewrite ?Hb, ?Hx, ?Hy, ?Hc);
    cbv iota; rewrite ?status_one_char.
  - rewrite (space_not_blank y Hy). now destruct (is_m_or_a y).
  - rewrite (space_not_blank x Hx), Ascii.eqb_refl. cbn [andb orb]. now destruct (is_m_or_a x).
  - rewrite (space_not_blank x Hx), (space_not_blank y Hy). simpl.
    destruct (Ascii.eqb (PyStr.lower_char x) "m"), (Ascii.eqb (PyStr.lower_char x) "a");
      reflexivity.
Qed.

Lemma backup_target_porcelain_witness :
  (("M"%char = " "%char \/ PySplit.is_space "M" = false) /\
   (" "%char = " "%char \/ PySplit.is_space " " = false) /\
   ~ ("M"%char = " "%char /\ " "%char = " "%char) /\ PySplit.is_space "i" = false) /\
  backup_target (String "M" (String " " (String " " (String "i" "nit.lua")))) =
    if porcelain_backed_up "M" " " then Some (String "i" "nit.lua") else None.
Proof.
  split; [split; [right; reflexivity | split; [left; reflexivity | split; [|reflexivity]]]|].
  - intros [H _]. discriminate.
  - apply backup_target_porcelain; [right; reflexivity | left; reflexivity | |reflexivity].
    intros [H _]. discriminate.
Defined.


(** ** the alias and the crontab entry *)

Lemma contains_app_r (sub s t : string) :
  PyStr.contains sub t = true -> PyStr.contains sub (s +:+ t) = true.
Proof.
  intros H. induction s as [|c s IH]; simpl_app; [exact H|].
  simpl. rewrite IH. apply orb_true_r.
Qed.

(** X15: [create_update_alias] is idempotent: after one run, a second
    run with the same shell leaves every rc file as it is and reports no
    alias added. *)
Theorem create_update_alias_idempotent (shell : string) (rc : gmap string string) :
  create_update_alias shell (create_update_alias shell rc).1 =
    ((create_update_alias shell rc).1, false).
Proof.
  unfold create_update_alias. destruct (alias_rc_file shell) as [f|]; [|reflexivity].
  destruct (append_alias (default "" (rc !! f))) as [content added] eqn:Ea. simpl.
  rewrite lookup_insert_eq. simpl.
  assert (Hc : PyStr.contains "alias update-nvim-config" content = true).
  { unfold append_alias in Ea.
    destruct (PyStr.contains "alias update-nvim-config" (default "" (rc !! f))) eqn:E;
      injection Ea as <- _; [exact E | apply contains_app_r; reflexivity]. }
  unfold append_alias. rewrite Hc, insert_insert_eq. reflexivity.
Qed.

(** X16: [setup_crontab] leaves a job running the update command, and is
    idempotent: a second run changes no job and does not write. *)
Theorem setup_crontab_idempotent (cron : list CronJob) :
  existsb (fun job => String.eqb (job_command job) update_command) (setup_crontab cron).1 = true /\
  setup_crontab (setup_crontab cron).1 = ((setup_crontab cron).1, false).
Proof.
  unfold setup_crontab.
  destruct (existsb (fun job => String.eqb (job_command job) update_command) cron) eqn:E;
    simpl; [rewrite E; auto|].
  assert (H : existsb (fun job => String.eqb (job_command job) update_command)
                (cron ++ [{| job_command := update_command; job_schedule := "0 2 * * *" |}])
              = true).
  { rewrite existsb_app, E. reflexivity. }
  rewrite H. auto.
Qed.

(** ** the self-update *)

Lemma temp_paths_ne (e : SelfUpdateEnv) : temp_script e <> replace_script_path e.
Proof.
  unfold temp_script, replace_script_path, path_join. simpl.
  destruct (String.eqb (temp_dir e) ""); [discriminate|].
  destruct (PyStr.endswith (temp_dir e) "/"); intros H; apply append_inj_l in H;
    rewrite ?append_String, ?append_Empty in H; discriminate.
Qed.

Lemma check_script_lookup (e : SelfUpdateEnv) (new : string) (fs : text_fs) (s t : string) :
  t <> temp_script e -> t <> replace_script_path e ->
  check_script e new fs s !! t =
    if (String.eqb t s && tmp_writable e && mv_ok e t && script_outdated new fs t)%bool
    then Some new else fs !! t.
Proof.
  intros Ht Hr. pose proof (temp_paths_ne e) as Hne.
  unfold check_script, script_outdated.
  destruct (String.eqb_spec t s) as [<-|Hts]; simpl.
  - destruct (fs !! t) as [cur|] eqn:Ec; [|rewrite !andb_false_r; exact Ec].
    destruct (String.eqb new cur); simpl; [rewrite !andb_false_r; exact Ec|].
    rewrite andb_true_r. unfold perform_update.
    destruct (tmp_writable e); simpl; [|exact Ec].
    unfold run_replace_script. destruct (mv_ok e t); simpl; [|].
    + rewrite lookup_insert_ne by congruence. rewrite lookup_insert_eq.
      apply lookup_insert_eq.
    + rewrite !lookup_insert_ne by congruence. exact Ec.
  - destruct (fs !! s) as [cur|]; [|reflexivity].
    destruct (String.eqb new cur); [reflexivity|].
    unfold perform_update. destruct (tmp_writable e); [|reflexivity].
    unfold run_replace_script. destruct (mv_ok e s).
    + rewrite lookup_insert_ne by congruence. rewrite lookup_insert_eq.
      rewrite lookup_insert_ne by congruence. rewrite lookup_delete_ne by congruence.
      rewrite !lookup_insert_ne by congruence. reflexivity.
    + rewrite !lookup_insert_ne by congruence. reflexivity.
Qed.

(** X17: after [check_and_update] with a 200 answer, a script path other
    than the two temporary files holds the downloaded text exactly when
    it is one of the targets, its content could be read and differed, the
    temporary directory was writable and the [mv] onto it succeeded;
    otherwise it is unchanged.  The replacement script runs to completion
    before the next target is read: [call] waits for it. *)
Theorem check_and_update_targets (e : SelfUpdateEnv) (new : string)
  (targets : list string) (files : text_fs) (t : string) :
  t <> temp_script e -> t <> replace_script_path e ->
  check_and_update e (Some (200, new)) targets files !! t =
    if (existsb (String.eqb t) targets && tmp_writable e && mv_ok e t &&
        script_outdated new files t)%bool
    then Some new else files !! t.
Proof.
  intros Ht Hr. unfold check_and_update. simpl.
  revert files. induction targets as [|s l IH]; intros files; [reflexivity|].
  simpl. rewrite IH.
  assert (Hq : script_outdated new (check_script e new files s) t =
               if (String.eqb t s && tmp_writable e && mv_ok e t &&
                   script_outdated new files t)%bool
               then false else script_outdated new files t).
  { unfold script_outdated at 1. rewrite check_script_lookup by assumption.
    destruct (String.eqb t s && tmp_writable e && mv_ok e t && script_outdated new files t)%bool;
      [cbv beta iota; now rewrite String.eqb_refl | reflexivity]. }
  rewrite Hq, check_script_lookup by assumption.
  destruct (String.eqb t s), (tmp_writable e), (mv_ok e t), (script_outdated new files t),
    (existsb (String.eqb t) l); reflexivity.
Qed.

Lemma check_and_update_targets_witness :
  (INSTALL_PATH <> temp_script tmp_env /\ INSTALL_PATH <> replace_script_path tmp_env) /\
  check_and_update tmp_env (Some (200, "v2"%string))
    [INSTALL_PATH; "/root/.config/nvim/update.py"] installed_scripts !! INSTALL_PATH =
  (if (existsb (String.eqb INSTALL_PATH) [INSTALL_PATH; "/root/.config/nvim/update.py"] &&
       tmp_writable tmp_env && mv_ok tmp_env INSTALL_PATH &&
       script_outdated "v2" installed_scripts INSTALL_PATH)%bool
   then Some "v2"%string else installed_scripts !! INSTALL_PATH).
Proof.
  split; [split; vm_compute; discriminate|].
  apply check_and_update_targets; vm_compute; discriminate.
Defined.
